(** * plover-tapey-tape: the paper-tape logger of [plover_tapey_tape.py]

    A shallow embedding of the [TapeyTape] extension: the template
    micro-language ([expand], the split of [output_format] around [%h]),
    the timing bar, the backward scan that collects suggestions, the
    configuration loading of [start], and the stroke handler [on_stroked]
    with its deferred right segment.

    Conventions.  A Python [str] is a [string]; its characters are the code
    points below 256.  A finite Python [float] is a rational of [Q], and the
    rounding division of floats is an operation of the class [PyFloat];
    the floats of the configuration are [pyfloat]s, which can be nan or
    infinite, and the handler is modelled for a finite time unit.  A
    [datetime] is a number of microseconds.  The [items] dict is a
    [gmap ascii string].  The log file is the list of the arguments of its
    [write] calls, oldest first; opening, flushing and closing it, and the
    connection of the hook, are left out.  An attribute read before it is
    set raises [AttributeError]. *)

From Stdlib Require Import Ascii String ZArith QArith Qround Lia.
From stdpp Require Import base option list strings gmap sorting.

Local Open Scope string_scope.
Local Open Scope list_scope.
#[local] Arguments String.append : simpl nomatch.

(** ** Python's [str] builtins *)

Module Py.

(** [str.isspace] on one character: the code points below 256 that Python
    classifies as whitespace (this is also what [\s] matches in a [str]
    pattern and what [rstrip()] removes). *)
Definition isspace_char (c : ascii) : bool :=
  let n := nat_of_ascii c in
  ((9 <=? n)%nat && (n <=? 13)%nat) || ((28 <=? n)%nat && (n <=? 32)%nat)
  || (n =? 133)%nat || (n =? 160)%nat.

Fixpoint all_space (s : string) : bool :=
  match s with
  | EmptyString => true
  | String c s' => isspace_char c && all_space s'
  end.

(** [s.isspace()]: at least one character, and all of them whitespace. *)
Definition isspace (s : string) : bool :=
  match s with
  | EmptyString => false
  | _ => all_space s
  end.

(** [s.rstrip()] *)
Fixpoint rstrip (s : string) : string :=
  match s with
  | EmptyString => EmptyString
  | String c s' =>
      match rstrip s' with
      | EmptyString => if isspace_char c then EmptyString else String c EmptyString
      | r => String c r
      end
  end.

(** [c * n] for a one-character string [c] *)
Fixpoint replicate (n : nat) (c : ascii) : string :=
  match n with
  | O => EmptyString
  | S n' => String c (replicate n' c)
  end.

(** [c * n] with a Python [int] count: nothing when [n <= 0]. *)
Definition mul_char (c : ascii) (n : Z) : string := replicate (Z.to_nat n) c.

(** [s.rjust(width)] *)
Definition rjust (s : string) (width : Z) : string :=
  replicate (Z.to_nat (width - Z.of_nat (String.length s))) " " +:+ s.

(** [sep.join(parts)] *)
Fixpoint join (sep : string) (parts : list string) : string :=
  match parts with
  | [] => EmptyString
  | [p] => p
  | p :: rest => p +:+ sep +:+ join sep rest
  end.

(** [''.join(parts)] *)
Definition concat (parts : list string) : string := join "" parts.

(** [key.strip('-')] *)
Fixpoint lstrip_char (d : ascii) (s : string) : string :=
  match s with
  | EmptyString => EmptyString
  | String c s' => if Ascii.eqb c d then lstrip_char d s' else s
  end.

Fixpoint rstrip_char (d : ascii) (s : string) : string :=
  match s with
  | EmptyString => EmptyString
  | String c s' =>
      match rstrip_char d s' with
      | EmptyString => if Ascii.eqb c d then EmptyString else String c EmptyString
      | r => String c r
      end
  end.

Definition strip_char (d : ascii) (s : string) : string :=
  rstrip_char d (lstrip_char d s).

(** [s[:n]] and [s[n:]] for [0 <= n] *)
Fixpoint take (n : nat) (s : string) : string :=
  match n, s with
  | S n', String c s' => String c (take n' s')
  | _, _ => EmptyString
  end.

Fixpoint drop (n : nat) (s : string) : string :=
  match n, s with
  | S n', String _ s' => drop n' s'
  | _, _ => s
  end.

End Py.

(** ** Exceptions *)

Inductive exn : Set :=
  | KeyError | ValueError | TypeError | OverflowError | AttributeError
  | FileNotFoundError | JSONDecodeError.

Inductive result (A : Type) : Type :=
  | Ok (a : A)
  | Raise (e : exn).
Arguments Ok {A} a.
Arguments Raise {A} e.

Definition bind {A B} (r : result A) (k : A -> result B) : result B :=
  match r with
  | Ok a => k a
  | Raise e => Raise e
  end.

Notation "'let*' x := r 'in' k" := (bind r (fun x => k))
  (at level 10, x name, r at level 100, k at level 200).

(** [try: r  except (KeyError, ValueError): d] *)
Definition except_Key_Value {A} (r : result A) (d : A) : result A :=
  match r with
  | Raise KeyError | Raise ValueError => Ok d
  | _ => r
  end.

(** ** What the host hands over *)

(** A formatting action: the two attributes the code reads. *)
Record Action : Type := mkAction {
  text : option string;
  glue : bool
}.

Record Stroke : Type := mkStroke {
  steno_keys : list string;
  is_correction : bool
}.

(** A translation of the translator's stack. *)
#[warnings="-register-all"]
Inductive Translation : Type := mkTranslation {
  strokes : list Stroke;
  rtfcre : list string;
  english : option string;
  replaced : list Translation;
  formatting : list Action
}.

(** An outline is a tuple of strokes in RTF/CRE notation. *)
Definition Outline : Type := list string.

Record Suggestion : Type := mkSuggestion {
  suggestion_text : string;
  steno_list : list Outline
}.

(** The collaborators of the [plover] package that the code calls:
    [plover.system], [RetroFormatter(...).last_fragments(0)] and
    [engine.get_suggestions]. *)
Class Host : Type := {
  KEYS : list string;
  NUMBERS : list (string * string);
  NUMBER_KEY : string;
  last_fragments : list Translation -> list string;
  engine_get_suggestions : string -> list Suggestion
}.

(** A Python [float]: a finite double, given by its value, an infinity or
    nan. *)
Inductive pyfloat : Type :=
  | Finite (q : Q)
  | Inf (negative : bool)
  | NaN.

(** Python's [float] operations that the code uses.  Division rounds, so it
    is kept abstract; what is used of it is that, for a positive
    denominator, it keeps non-negative numerators non-negative and is
    monotone in the numerator, as a correctly rounded division is.
    [float_of_str] and [int_of_str] are [float(s)] and [int(s)] for a
    string, [None] when they raise [ValueError]. *)
Class PyFloat : Type := {
  fdiv : Q -> Q -> Q;
  float_of_str : string -> option pyfloat;
  int_of_str : string -> option Z;
  fdiv_nonneg : forall a u : Q, (0 <= a)%Q -> (0 < u)%Q -> (0 <= fdiv a u)%Q;
  fdiv_mono : forall a b u : Q,
    (a <= b)%Q -> (0 < u)%Q -> (fdiv a u <= fdiv b u)%Q
}.

(** [int(x)] for a float [x]: truncation towards zero. *)
Definition int_of_float (x : Q) : Z := Z.quot (Qnum x) (Zpos (Qden x)).

(** [max(a, b)] on finite floats: the first of the largest. *)
Definition float_max (a b : Q) : Q := if Qle_bool b a then a else b.

(** [b > x] for a finite [b]: false when [x] is nan. *)
Definition float_gt (b : Q) (x : pyfloat) : bool :=
  match x with
  | Finite q => negb (Qle_bool b q)
  | Inf negative => negative
  | NaN => false
  end.

(** [max(x, b)]: [x] unless [b > x], so a nan [x] stays. *)
Definition py_max (x : pyfloat) (b : Q) : pyfloat :=
  if float_gt b x then Finite b else x.

(** The double nearest to an integer, ties to even, as an integer: what
    [float(z)] is when it does not overflow. *)
Definition nearest_double (z : Z) : Z :=
  let a := Z.abs z in
  let e := (Z.log2 a - 52)%Z in
  if (e <=? 0)%Z then z
  else
    let q := Z.shiftr a e in
    let r := Z.land a (Z.ones e) in
    let half := (2 ^ (e - 1))%Z in
    let q' := if (half <? r)%Z || ((r =? half)%Z && Z.odd q)
              then (q + 1)%Z else q in
    (Z.sgn z * (q' * 2 ^ e))%Z.

(** ** The object *)

Definition Items : Type := gmap ascii string.

Record TapeyTape : Type := mkTapeyTape {
  last_stroke_time : option Z;      (* microseconds *)
  was_fingerspelling : bool;
  bar_time_unit : Q;
  bar_max_width : Z;
  output_style : string;
  left_format : string;
  right_format : string;
  numbers : gmap string string;
  items : option Items;
  file : list string
}.

Definition nl : string := String (ascii_of_nat 10) EmptyString.

(** [self.file.write(s)] *)
Definition file_write (self : TapeyTape) (s : string) : TapeyTape :=
  mkTapeyTape (last_stroke_time self) (was_fingerspelling self)
    (bar_time_unit self) (bar_max_width self) (output_style self)
    (left_format self) (right_format self) (numbers self) (items self)
    (file self ++ [s]).

Definition set_items (self : TapeyTape) (its : Items) : TapeyTape :=
  mkTapeyTape (last_stroke_time self) (was_fingerspelling self)
    (bar_time_unit self) (bar_max_width self) (output_style self)
    (left_format self) (right_format self) (numbers self) (Some its)
    (file self).

Definition set_last_stroke_time (self : TapeyTape) (now : Z) : TapeyTape :=
  mkTapeyTape (Some now) (was_fingerspelling self)
    (bar_time_unit self) (bar_max_width self) (output_style self)
    (left_format self) (right_format self) (numbers self) (items self)
    (file self).

Definition set_was_fingerspelling (self : TapeyTape) (b : bool) : TapeyTape :=
  mkTapeyTape (last_stroke_time self) b
    (bar_time_unit self) (bar_max_width self) (output_style self)
    (left_format self) (right_format self) (numbers self) (items self)
    (file self).

(** ** Static methods *)

(** [SHOW_WHITESPACE] and [str.translate] with it *)
Fixpoint show_whitespace (s : string) : string :=
  match s with
  | EmptyString => EmptyString
  | String c s' =>
      let r := show_whitespace s' in
      if Ascii.eqb c (ascii_of_nat 10) then "\n" +:+ r
      else if Ascii.eqb c (ascii_of_nat 13) then "\r" +:+ r
      else if Ascii.eqb c (ascii_of_nat 9) then "\t" +:+ r
      else String c r
  end.

Definition retroformat `{Host} (translations : list Translation) : string :=
  Py.concat (last_fragments translations).

(** [items.get(key, '')] *)
Definition items_get (its : Items) (key : ascii) : string :=
  default EmptyString (its !! key).

(** [re.sub('%(.)', lambda match: items.get(match.group(1), ''), format_string)]:
    the dot matches every character but the line feed. *)
Fixpoint expand (format_string : string) (its : Items) : string :=
  match format_string with
  | EmptyString => EmptyString
  | String c rest =>
      match rest with
      | EmptyString => String c EmptyString
      | String k rest' =>
          if Ascii.eqb c "%" && negb (Ascii.eqb k (ascii_of_nat 10))
          then items_get its k +:+ expand rest' its
          else String c (expand rest its)
      end
  end.

Definition is_fingerspelling (translation : Translation) : bool :=
  existsb glue (formatting translation).

(** [not action.text or action.text.isspace()] *)
Definition blank_text (a : Action) : bool :=
  match text a with
  | None => true
  | Some EmptyString => true
  | Some s => Py.isspace s
  end.

Definition is_whitespace (translation : Translation) : bool :=
  forallb blank_text (formatting translation).

(** ** Suggestions *)

Section Suggestions.
Context `{Host}.

(** [sum(len(translation.rtfcre) for translation in translations)] *)
Definition stroke_count (translations : list Translation) : nat :=
  foldr (fun translation n => (length (rtfcre translation) + n)%nat) 0%nat
    translations.

Definition get_suggestions (translations : list Translation) : list Outline :=
  let text := retroformat translations in
  let stroke_count := stroke_count translations in
  suggestion ← engine_get_suggestions text;
  outline ← steno_list suggestion;
  if (length outline <? stroke_count)%nat then [outline] else [].

(** [deque.extendleft(buffer)]: one [appendleft] per element, in order. *)
Definition extendleft {A} (deque buffer : list A) : list A :=
  foldl (fun d x => x :: d) deque buffer.

(** The three locals of the scan: [buffer], [deque], [suggestions]. *)
Definition ScanState : Type :=
  (list Translation * list Translation * list (list Outline))%type.

(** The body of [for translation in reversed(translations)]. *)
Definition scan_body (st : ScanState) (translation : Translation) : ScanState :=
  let '(buffer, deque, suggestions) := st in
  if is_fingerspelling translation then
    (buffer ++ [translation], deque, suggestions)
  else
    let '(buffer, deque, suggestions) :=
      match buffer with
      | [] => (buffer, deque, suggestions)
      | _ =>
          let deque := extendleft deque buffer in
          ([], deque, suggestions ++ [get_suggestions deque])
      end in
    let deque := translation :: deque in
    if negb (is_whitespace translation)
    then (buffer, deque, suggestions ++ [get_suggestions deque])
    else (buffer, deque, suggestions).

(** The loop and the [if buffer:] that follows it. *)
Definition scan (translations : list Translation) : list (list Outline) :=
  let '(buffer, deque, suggestions) :=
    foldl scan_body ([], [], []) (reverse translations) in
  match buffer with
  | [] => suggestions
  | _ => suggestions ++ [get_suggestions (extendleft deque buffer)]
  end.

(** [enumerate(l, start)] *)
Fixpoint enumerate {A} (start : Z) (l : list A) : list (Z * A) :=
  match l with
  | [] => []
  | x :: l' => (start, x) :: enumerate (start + 1) l'
  end.

(** ['>' * i + ' '.join(map('/'.join, outlines))] *)
Definition render_tier (i : Z) (outlines : list Outline) : string :=
  Py.mul_char ">" i +:+ Py.join " " (map (Py.join "/") outlines).

(** The generator expression under [' '.join]. *)
Definition render (suggestions : list (list Outline)) : string :=
  Py.join " "
    (omap (fun '(i, outlines) =>
             match outlines with
             | [] => None
             | _ => Some (render_tier i outlines)
             end)
          (enumerate 1 suggestions)).

(** The hint of an event whose newest translation is [newest]. *)
Definition hint (translations : list Translation) (newest : Translation) : string :=
  render (if negb (is_whitespace newest) then scan translations else []).

End Suggestions.

(** ** The handler of the [stroked] hook *)

Section Handler.
Context `{Host} `{PyFloat}.

(** [(now - last).total_seconds()], times in microseconds *)
Definition total_seconds (delta : Z) : Q := Qmake delta 1000000.

(** [min(int(seconds / self.bar_time_unit), self.bar_max_width)] *)
Definition bar_width (self : TapeyTape) (seconds : Q) : Z :=
  Z.min (int_of_float (fdiv seconds (bar_time_unit self))) (bar_max_width self).

(** [('+' * width).rjust(self.bar_max_width)] *)
Definition bar (self : TapeyTape) (seconds : Q) : string :=
  Py.rjust (Py.mul_char "+" (bar_width self seconds)) (bar_max_width self).

(** The [keys] set of a stroke. *)
Definition pressed_keys (self : TapeyTape) (stroke : Stroke) : gset string :=
  foldl (fun (keys : gset string) key =>
           match numbers self !! key with
           | Some letter => {[ NUMBER_KEY ]} ∪ ({[ letter ]} ∪ keys)
           | None => {[ key ]} ∪ keys
           end)
        ∅ (steno_keys stroke).

Definition steno (self : TapeyTape) (stroke : Stroke) : string :=
  let keys := pressed_keys self stroke in
  Py.concat (map (fun key => if bool_decide (key ∈ keys)
                             then Py.strip_char "-" key else " ") KEYS).

(** The condition of the [if] under "Add back what was delayed". *)
Definition suppress_suggestions (stroke : Stroke)
    (translations : list Translation) : bool :=
  match last translations with
  | None => true
  | Some newest =>
      is_fingerspelling newest
      || is_correction stroke
      || match replaced newest with [] => false | _ => true end
  end.

(** "Add back what was delayed": the first block of [on_stroked]. *)
Definition add_back (self : TapeyTape) (stroke : Stroke)
    (translations : list Translation) : result TapeyTape :=
  if was_fingerspelling self then
    match items self with
    | None => Raise AttributeError
    | Some its =>
        let its := if suppress_suggestions stroke translations
                   then <[ "h"%char := EmptyString ]> its else its in
        let self := set_items self its in
        let self := file_write self (Py.rstrip (expand (right_format self) its)) in
        Ok (file_write self nl)
    end
  else Ok self.

(** [star + formatted.translate(self.SHOW_WHITESPACE)] *)
Definition output_of (self : TapeyTape) (newest : Translation) : string :=
  let star := if (1 <? length (strokes newest))%nat then "*" else "" in
  let formatted :=
    if String.eqb (output_style self) "translation"
    then retroformat [newest]
    else match english newest with
         | None => "/"
         | Some definition => definition
         end in
  star +:+ show_whitespace formatted.

(** The branch on the event kind: [output], [suggestions] and the new
    [was_fingerspelling]. *)
Definition examine (self : TapeyTape) (stroke : Stroke)
    (translations : list Translation) : string * string * bool :=
  match last translations with
  | None => ("*", "", false)
  | Some newest =>
      if is_correction stroke then ("*", "", false)
      else (output_of self newest, hint translations newest,
            is_fingerspelling newest)
  end.

Definition make_items (b s t h : string) : Items :=
  <[ "b"%char := b ]> (<[ "s"%char := s ]> (<[ "t"%char := t ]>
    (<[ "h"%char := h ]> (<[ "%"%char := "%" ]> ∅)))).

(** [seconds] of the "Bar" block. *)
Definition elapsed (self : TapeyTape) (now : Z) : Q :=
  match last_stroke_time self with
  | None => 0%Q
  | Some last => total_seconds (now - last)
  end.

(** The field map of the event. *)
Definition event_items (self : TapeyTape) (stroke : Stroke)
    (translations : list Translation) (now : Z) : Items :=
  let '(output, suggestions, _) := examine self stroke translations in
  make_items (bar self (elapsed self now)) (steno self stroke) output suggestions.

(** [on_stroked]: [translations] is what
    [self.engine.translator_state.translations] holds when the hook runs,
    [now] what [datetime.now()] returns. *)
Definition on_stroked (self : TapeyTape) (stroke : Stroke)
    (translations : list Translation) (now : Z) : result TapeyTape :=
  let* self := add_back self stroke translations in
  let its := event_items self stroke translations now in
  let '(_, _, fingerspelling) := examine self stroke translations in
  let self := set_last_stroke_time self now in
  let self := set_was_fingerspelling self fingerspelling in
  let self := set_items self its in
  let self := file_write self (expand (left_format self) its) in
  let self :=
    if negb (was_fingerspelling self) then
      file_write (file_write self (Py.rstrip (expand (right_format self) its))) nl
    else self in
  Ok self.

Definition stop (self : TapeyTape) : result TapeyTape :=
  if was_fingerspelling self then
    match items self with
    | None => Raise AttributeError
    | Some its =>
        let self := file_write self (Py.rstrip (expand (right_format self) its)) in
        Ok (file_write self nl)
    end
  else Ok self.

(** One event as the host delivers it. *)
Record Event : Type := mkEvent {
  ev_stroke : Stroke;
  ev_translations : list Translation;
  ev_now : Z
}.

Definition handle (self : TapeyTape) (e : Event) : result TapeyTape :=
  on_stroked self (ev_stroke e) (ev_translations e) (ev_now e).

(** The hook called on each event of a list, in order. *)
Fixpoint run (self : TapeyTape) (events : list Event) : result TapeyTape :=
  match events with
  | [] => Ok self
  | e :: events' => let* self := handle self e in run self events'
  end.

End Handler.

(** ** Start-up: the configuration and the split of the template *)

(** What [json.load] can return. *)
#[warnings="-register-all"]
Inductive json : Type :=
  | JNull
  | JBool (b : bool)
  | JInt (z : Z)
  | JFloat (x : pyfloat)
  | JStr (s : string)
  | JArr (l : list json)
  | JObj (fields : list (string * json)).

(** The file [tapey_tape.json] as [start] meets it: [open] fails, or
    [json.load] fails, or it returns a value. *)
Inductive ConfigFile : Type :=
  | Missing
  | Malformed
  | Parsed (j : json).

(** A JSON object becomes a dict: of two equal keys the later one stays. *)
Fixpoint dict_lookup (fields : list (string * json)) (key : string) : option json :=
  match fields with
  | [] => None
  | (k, v) :: fields' =>
      match dict_lookup fields' key with
      | Some v' => Some v'
      | None => if String.eqb k key then Some v else None
      end
  end.

(** [config[key]] *)
Definition subscript (config : json) (key : string) : result json :=
  match config with
  | JObj fields =>
      match dict_lookup fields key with
      | Some v => Ok v
      | None => Raise KeyError
      end
  | _ => Raise TypeError
  end.

(** [config.get(key)]: [None] is [JNull]. *)
Definition dict_get (config : json) (key : string) : result json :=
  match config with
  | JObj fields => Ok (default JNull (dict_lookup fields key))
  | _ => Raise AttributeError
  end.

(** [v == s] for a string [s] *)
Definition json_is_str (v : json) (s : string) : bool :=
  match v with
  | JStr s' => String.eqb s' s
  | _ => false
  end.

(** The two characters [%h] at the start of [s]. *)
Definition starts_with_hint (s : string) : bool :=
  match s with
  | String c (String k _) => Ascii.eqb c "%" && Ascii.eqb k "h"
  | _ => false
  end.

(** The separator [\s*%h] of the split, tried at the start of [s]: the
    whitespace run is taken greedily and given back character by character.
    The result is the length of the match. *)
Fixpoint match_here (s : string) : option nat :=
  let percent_h := if starts_with_hint s then Some 2%nat else None in
  match s with
  | String c s' =>
      if Py.isspace_char c then
        match match_here s' with
        | Some n => Some (S n)
        | None => percent_h
        end
      else percent_h
  | EmptyString => None
  end.

(** The leftmost match: its start and its length. *)
Fixpoint search (s : string) : option (nat * nat) :=
  match match_here s with
  | Some n => Some (0%nat, n)
  | None =>
      match s with
      | EmptyString => None
      | String _ s' =>
          match search s' with
          | Some (i, n) => Some (S i, n)
          | None => None
          end
      end
  end.

(** [re.split(r'(\s*%h)', output_format, maxsplit=1)] *)
Definition re_split (output_format : string) : list string :=
  match search output_format with
  | None => [output_format]
  | Some (i, n) =>
      [Py.take i output_format;
       Py.take n (Py.drop i output_format);
       Py.drop (i + n) output_format]
  end.

(** [self.left_format, *rest = ...] and [self.right_format = ''.join(rest)] *)
Definition split_format (output_format : string) : string * string :=
  match re_split output_format with
  | [] => (EmptyString, EmptyString)
  | first :: rest => (first, Py.concat rest)
  end.

Definition default_output_format : string := "%b |%s| %t  %h".

Section Start.
Context `{Host} `{PyFloat}.

(** [float(v)] *)
Definition py_float (v : json) : result pyfloat :=
  match v with
  | JInt z =>
      let d := nearest_double z in
      if (Z.abs d <? 2 ^ 1024)%Z then Ok (Finite (inject_Z d))
      else Raise OverflowError
  | JFloat x => Ok x
  | JBool b => Ok (Finite (if b then 1%Q else 0%Q))
  | JStr s =>
      match float_of_str s with
      | Some x => Ok x
      | None => Raise ValueError
      end
  | JNull | JArr _ | JObj _ => Raise TypeError
  end.

(** [int(v)] *)
Definition py_int (v : json) : result Z :=
  match v with
  | JInt z => Ok z
  | JFloat (Finite q) => Ok (int_of_float q)
  | JFloat (Inf _) => Raise OverflowError
  | JFloat NaN => Raise ValueError
  | JBool b => Ok (if b then 1%Z else 0%Z)
  | JStr s =>
      match int_of_str s with
      | Some z => Ok z
      | None => Raise ValueError
      end
  | JNull | JArr _ | JObj _ => Raise TypeError
  end.

(** The [try] around [json.load]. *)
Definition load_config (f : ConfigFile) : result json :=
  match f with
  | Missing => Ok (JObj [])
  | Malformed => Raise JSONDecodeError
  | Parsed j => Ok j
  end.

(** [{number: letter for letter, number in plover.system.NUMBERS.items()}] *)
Definition invert_numbers : gmap string string :=
  foldl (fun m '(letter, number) => <[ number := letter ]> m) ∅ NUMBERS.

(** The attributes [start] sets.  The time unit is a float as Python has
    it: it can be nan or infinite. *)
Record Config : Type := mkConfig {
  cfg_bar_time_unit : pyfloat;
  cfg_bar_max_width : Z;
  cfg_output_style : string;
  cfg_left_format : string;
  cfg_right_format : string;
  cfg_numbers : gmap string string
}.

Definition start (f : ConfigFile) : result Config :=
  let* config := load_config f in
  let* bar_time_unit :=
    except_Key_Value
      (let* v := subscript config "bar_time_unit" in
       let* x := py_float v in
       Ok (py_max x (1 # 100)))
      (Finite (2 # 10)) in
  let* bar_max_width :=
    except_Key_Value
      (let* v := subscript config "bar_max_width" in
       let* n := py_int v in
       Ok (Z.min (Z.max n 0) 100))
      5%Z in
  let* output_style := dict_get config "output_style" in
  let output_style :=
    if json_is_str output_style "translation" then "translation"
    else "definition" in
  let* output_format := dict_get config "output_format" in
  let output_format :=
    match output_format with
    | JStr s => s
    | _ => default_output_format
    end in
  let '(left_format, right_format) := split_format output_format in
  Ok (mkConfig bar_time_unit bar_max_width output_style
        left_format right_format invert_numbers).

(** The object after [__init__] and [start], its log empty, when the time
    unit is a finite number.  The handler is modelled for these objects
    only: with a nan time unit [int(seconds / self.bar_time_unit)] raises
    on every stroke, with an infinite one the quotient is zero. *)
Definition tape_of (c : Config) : option TapeyTape :=
  match cfg_bar_time_unit c with
  | Finite unit =>
      Some (mkTapeyTape None false unit (cfg_bar_max_width c)
              (cfg_output_style c) (cfg_left_format c) (cfg_right_format c)
              (cfg_numbers c) None [])
  | Inf _ | NaN => None
  end.

End Start.

(** ** The specification's wording, to be compared with the code *)

Module Spec.

(** The position of the first occurrence of [%h] in a template. *)
Fixpoint first_hint (template : string) : option nat :=
  match template with
  | EmptyString => None
  | String c rest =>
      if starts_with_hint template then Some 0%nat
      else S <$> first_hint rest
  end.

(** The split at the first [%h] and the whitespace run just before it: the
    left segment is what precedes that run, the right segment is the rest. *)
Definition split (template : string) : string * string :=
  match first_hint template with
  | None => (template, EmptyString)
  | Some p =>
      let before := Py.rstrip (Py.take p template) in
      (before, Py.drop (String.length before) template)
  end.

Section Scan.
Context `{Host}.

(** The walk from the newest entry to the oldest.  [window] is the current
    window and [run] the side buffer, both oldest first; the result lists
    the windows for which a lookup is emitted, in emission order. *)
Fixpoint walk (newest_first window run : list Translation)
    : list (list Translation) :=
  match newest_first with
  | [] =>
      match run with
      | [] => []
      | _ => [run ++ window]
      end
  | entry :: older =>
      if is_fingerspelling entry then walk older window (entry :: run)
      else
        let spliced := run ++ window in
        let at_break := match run with [] => [] | _ => [spliced] end in
        let pushed := entry :: spliced in
        let at_push := if is_whitespace entry then [] else [pushed] in
        at_break ++ at_push ++ walk older pushed []
  end.

Definition windows (snapshot : list Translation) : list (list Translation) :=
  walk (reverse snapshot) [] [].

(** One tier per emitted lookup. *)
Definition tiers (snapshot : list Translation) : list (list Outline) :=
  map get_suggestions (windows snapshot).

End Scan.

(** Tier [i] with its [i] markers, outlines joined by [/] and results by
    spaces. *)
Definition tier_text (i : nat) (results : list Outline) : string :=
  Py.replicate i ">" +:+ Py.join " " (map (Py.join "/") results).

Definition nonempty_tier (tier : nat * list Outline) : bool :=
  match tier.2 with [] => false | _ => true end.

(** Tiers numbered from 1, the empty ones left out, the others joined by
    single spaces. *)
Definition hint_text (tiers : list (list Outline)) : string :=
  Py.join " "
    (map (fun tier => tier_text tier.1 tier.2)
       (filter (fun tier => nonempty_tier tier = true)
          (zip (seq 1 (length tiers)) tiers))).

End Spec.

(** ** Views of the state, for the statements below *)

(** The last character of a string, if any. *)
Fixpoint last_char (s : string) : option ascii :=
  match s with
  | EmptyString => None
  | String c EmptyString => Some c
  | String _ s' => last_char s'
  end.

(** A deferral is pending only when the field map of its event is there. *)
Definition consistent (self : TapeyTape) : bool :=
  negb (was_fingerspelling self)
  || match items self with Some _ => true | None => false end.

(** What [start] fixes and [on_stroked] only reads. *)
Definition settings (self : TapeyTape) :=
  (bar_time_unit self, bar_max_width self, output_style self,
   left_format self, right_format self, numbers self).

(** What the first block writes. *)
Definition resolved (self : TapeyTape) (stroke : Stroke)
    (translations : list Translation) : list string :=
  if was_fingerspelling self then
    match items self with
    | Some old =>
        let old' := if suppress_suggestions stroke translations
                    then <[ "h"%char := "" ]> old else old in
        [Py.rstrip (expand (right_format self) old'); nl]
    | None => []
    end
  else [].

(** An event that is not a correction and whose newest entry is
    fingerspelling. *)
Definition fingerspelling_event (e : Event) : bool :=
  negb (is_correction (ev_stroke e))
  && match last (ev_translations e) with
     | Some newest => is_fingerspelling newest
     | None => false
     end.

(** An event that is not a correction and whose newest entry is not
    fingerspelling. *)
Definition merge_event (e : Event) : bool :=
  negb (is_correction (ev_stroke e))
  && match last (ev_translations e) with
     | Some newest => negb (is_fingerspelling newest)
     | None => false
     end.

(** What has been written, and the hint that is still withheld. *)
Definition written (r : result TapeyTape) : list string :=
  match r with
  | Ok self => file self
  | Raise _ => []
  end.

Definition pending_hint (r : result TapeyTape) : option string :=
  match r with
  | Ok self =>
      if was_fingerspelling self then its ← items self; its !! "h"%char
      else None
  | Raise _ => None
  end.

(** The lines of a log: left segment, right segment, line break. *)
Definition log_lines (lines : list (string * string)) : list string :=
  concat (map (fun line => [line.1; line.2; nl]) lines).

(** The log is a list of whole lines, followed by one left segment exactly
    when a deferral is pending. *)
Definition shape (start : list string) (n : nat) (self : TapeyTape) : Prop :=
  exists lines : list (string * string),
    if was_fingerspelling self then
      exists its, items self = Some its
        /\ S (length lines) = n
        /\ file self = start ++ log_lines lines ++ [expand (left_format self) its]
    else
      length lines = n /\ file self = start ++ log_lines lines.

(** [c in s] *)
Fixpoint has_char (c : ascii) (s : string) : bool :=
  match s with
  | EmptyString => false
  | String a s' => Ascii.eqb a c || has_char c s'
  end.

(** Every character of [s] passes the test [p]. *)
Fixpoint all_chars (p : ascii -> bool) (s : string) : bool :=
  match s with
  | EmptyString => true
  | String a s' => p a && all_chars p s'
  end.

(** A text written as a template: every [%] doubled. *)
Fixpoint escape_percent (s : string) : string :=
  match s with
  | EmptyString => EmptyString
  | String c s' =>
      if Ascii.eqb c "%" then String "%" (String "%" (escape_percent s'))
      else String c (escape_percent s')
  end.

(** The values of [bar_time_unit] on which [float] neither raises
    [TypeError] nor [OverflowError]. *)
Definition float_field_ok (v : json) : bool :=
  match v with
  | JNull | JArr _ | JObj _ => false
  | JInt z => (Z.abs (nearest_double z) <? 2 ^ 1024)%Z
  | JBool _ | JFloat _ | JStr _ => true
  end.

(** The values of [bar_max_width] on which [int] neither raises
    [TypeError] nor [OverflowError]. *)
Definition int_field_ok (v : json) : bool :=
  match v with
  | JNull | JArr _ | JObj _ => false
  | JFloat (Inf _) => false
  | JBool _ | JInt _ | JFloat _ | JStr _ => true
  end.

(** ** A small host, to run the definitions *)

Module Toy.

Definition action_text (a : Action) : string := default EmptyString (text a).

(** Fragments of a toy formatter: the texts of each translation, glued. *)
Definition fragments (translations : list Translation) : list string :=
  map (fun t => Py.concat (map action_text (formatting t))) translations.

(** A toy dictionary: "fo" and "foo" have briefs. *)
Definition lookup (text : string) : list Suggestion :=
  if String.eqb text "fo" then [mkSuggestion "fo" [["TPO"]]]
  else if String.eqb text "foo" then
    [mkSuggestion "foo" [["TPAO"]; ["TP*"; "O*"; "O*"]; ["TPO"; "O*"]]]
  else [].

Definition host : Host := {|
  KEYS := ["#"; "S-"; "T-"; "P-"; "A-"; "O-"; "*"; "-T"; "-S"];
  NUMBERS := [("S-", "1-"); ("T-", "2-"); ("-T", "-9")];
  NUMBER_KEY := "#";
  last_fragments := fragments;
  engine_get_suggestions := lookup
|}.

(** Floats with an exact division and no string parsing. *)
Definition floats : PyFloat.
Proof.
  refine {| fdiv := Qdiv;
            float_of_str := fun _ => None;
            int_of_str := fun _ => None |}.
  - intros a u Ha Hu. unfold Qdiv.
    apply Qmult_le_0_compat; [assumption|].
    apply Qlt_le_weak, Qinv_lt_0_compat, Hu.
  - intros a b u Hab Hu. unfold Qdiv.
    apply Qmult_le_compat_r; [assumption|].
    apply Qlt_le_weak, Qinv_lt_0_compat, Hu.
Defined.

(** The translations of "word", of a fingerspelled letter, and of a cursor
    movement that writes nothing. *)
Definition word (s : string) (outline : list string) : Translation :=
  mkTranslation (map (fun _ => mkStroke [] false) outline) outline (Some s) []
    [mkAction (Some s) false].

Definition letter (s : string) (chord : string) : Translation :=
  mkTranslation [mkStroke [] false] [chord] (Some ("{&" +:+ s +:+ "}")) []
    [mkAction (Some s) true].

Definition tape : TapeyTape :=
  mkTapeyTape None false (2 # 10) 5 "definition" "%b |%s| %t" "  %h"
    ∅ None [].

(** Scenario B: F, O, O fingerspelled, then a stroke for a word. *)
Definition f : Translation := letter "f" "TP*".
Definition o : Translation := letter "o" "O*".
Definition foo : Translation := word "foo" ["TPAO"].

Definition first : Event := mkEvent (mkStroke ["T-"; "P-"; "*"] false) [f] 0.
Definition second : Event :=
  mkEvent (mkStroke ["O-"; "*"] false) [f; o] 300000.
Definition third : Event :=
  mkEvent (mkStroke ["O-"; "*"] false) [f; o; o] 1000000.
Definition merge : Event :=
  mkEvent (mkStroke ["T-"; "P-"; "A-"; "O-"] false) [foo] 10000000.

(** The state after the third letter, its right segment withheld. *)
Definition pending_items : Items :=
  make_items "  +++" "     O*  " "{&o}" ">TPAO TPO/O*".

Definition pending : TapeyTape :=
  mkTapeyTape (Some 1000000%Z) true (2 # 10) 5 "definition" "%b |%s| %t" "  %h"
    ∅ (Some pending_items) ["  +++ |     O*  | {&o}"].

(** What [start] sets without a configuration file, and the object then. *)
Definition config : Config :=
  mkConfig (Finite (2 # 10)) 5 "definition" "%b |%s| %t" "  %h"
    (@invert_numbers host).

(** A tape in the style that writes the translation. *)
Definition translating : TapeyTape :=
  mkTapeyTape None false (2 # 10) 5 "translation" "%b |%s| %t" "  %h"
    ∅ None [].

(** A word written with its space after it. *)
Definition spaced : Translation :=
  mkTranslation [mkStroke [] false] ["KAT"] (Some "cat") []
    [mkAction (Some "cat ") false].

Definition spaced_event : Event :=
  mkEvent (mkStroke ["A-"; "-T"] false) [spaced] 0.

(** The object after that [start]. *)
Definition started : TapeyTape :=
  mkTapeyTape None false (2 # 10) 5 "definition" "%b |%s| %t" "  %h"
    (@invert_numbers host) None [].

(** An entry that writes nothing. *)
Definition silent : Translation := mkTranslation [] [] None [] [].

(** An undo stroke. *)
Definition undo : Stroke := mkStroke ["*"] true.

(** The typical case of the comment in [on_stroked]: a word after the
    fingerspelled letters, nothing replaced. *)
Definition cat : Translation := word "cat" ["KAT"].
Definition word_after : Event :=
  mkEvent (mkStroke ["A-"; "-T"] false) [f; o; o; cat] 10000000.

End Toy.

(** * Properties *)

(** ** Strings *)

Section StringFacts.

Lemma str_app_empty_r (s : string) : s +:+ "" = s.
Proof. induction s as [|c s IH]; simpl; [reflexivity | now rewrite IH]. Qed.

Lemma str_app_assoc (s1 s2 s3 : string) : (s1 +:+ s2) +:+ s3 = s1 +:+ (s2 +:+ s3).
Proof. induction s1 as [|c s1 IH]; simpl; [reflexivity | now rewrite IH]. Qed.

Lemma str_app_length (s1 s2 : string) :
  String.length (s1 +:+ s2) = (String.length s1 + String.length s2)%nat.
Proof. induction s1 as [|c s1 IH]; simpl; [reflexivity | now rewrite IH]. Qed.

Lemma str_replicate_length (n : nat) (c : ascii) :
  String.length (Py.replicate n c) = n.
Proof. induction n as [|n IH]; simpl; [reflexivity | now rewrite IH]. Qed.

Lemma str_take_drop (n : nat) (s : string) : Py.take n s +:+ Py.drop n s = s.
Proof.
  revert s; induction n as [|n IH]; intros [|c s]; simpl; try reflexivity.
  now rewrite IH.
Qed.

Lemma str_drop_drop (n m : nat) (s : string) :
  Py.drop m (Py.drop n s) = Py.drop (n + m) s.
Proof.
  revert s; induction n as [|n IH]; intros s; simpl; [reflexivity|].
  destruct s as [|c s]; simpl; [now destruct m | apply IH].
Qed.

Lemma str_take_take (n m : nat) (s : string) :
  (n <= m)%nat -> Py.take n (Py.take m s) = Py.take n s.
Proof.
  revert m s; induction n as [|n IH]; intros m s Hle; simpl.
  - now destruct (Py.take m s).
  - destruct m as [|m]; [lia|]. destruct s as [|c s]; simpl; [reflexivity|].
    rewrite IH by lia. reflexivity.
Qed.

Lemma str_take_length_le (n : nat) (s : string) :
  (String.length (Py.take n s) <= n)%nat.
Proof.
  revert s; induction n as [|n IH]; intros [|c s]; simpl; try lia.
  specialize (IH s). lia.
Qed.

Lemma str_take_all (s : string) : Py.take (String.length s) s = s.
Proof. induction s as [|c s IH]; simpl; [reflexivity | now rewrite IH]. Qed.

(** What [rstrip] removes is a run of whitespace at the end. *)
Lemma rstrip_empty_iff (s : string) :
  Py.rstrip s = "" <-> Py.all_space s = true.
Proof.
  induction s as [|c s IH]; simpl; [tauto|].
  destruct (Py.rstrip s) eqn:E.
  - destruct (Py.isspace_char c); simpl.
    + tauto.
    + split; discriminate.
  - split; [discriminate|].
    intros Hc. apply andb_true_iff in Hc as [_ Hs].
    apply IH in Hs. discriminate.
Qed.

Lemma rstrip_prefix (s : string) :
  Py.rstrip s = Py.take (String.length (Py.rstrip s)) s.
Proof.
  induction s as [|c s IH]; simpl; [reflexivity|].
  destruct (Py.rstrip s) eqn:E.
  - destruct (Py.isspace_char c); simpl; [reflexivity|].
    now destruct s.
  - simpl. f_equal. exact IH.
Qed.

Lemma rstrip_removed_space (s : string) :
  Py.all_space (Py.drop (String.length (Py.rstrip s)) s) = true.
Proof.
  induction s as [|c s IH]; simpl; [reflexivity|].
  destruct (Py.rstrip s) eqn:E.
  - destruct (Py.isspace_char c) eqn:Ec; simpl.
    + rewrite Ec. simpl. now apply rstrip_empty_iff.
    + now apply rstrip_empty_iff.
  - simpl. exact IH.
Qed.


(** [rstrip] leaves no whitespace at the end. *)
Lemma rstrip_last_char (s : string) (c : ascii) :
  last_char (Py.rstrip s) = Some c -> Py.isspace_char c = false.
Proof.
  induction s as [|a s IH]; simpl; [discriminate|].
  destruct (Py.rstrip s) as [|b r] eqn:E.
  - destruct (Py.isspace_char a) eqn:Ea; simpl; [discriminate|].
    intros [= <-]. exact Ea.
  - intros Hl. apply IH. exact Hl.
Qed.

Lemma app_nonempty_r (a b : string) : b <> "" -> a +:+ b <> "".
Proof. destruct a; [auto | discriminate]. Qed.

Lemma last_char_cons (c : ascii) (r : string) :
  r <> "" -> last_char (String c r) = last_char r.
Proof. destruct r; [congruence | reflexivity]. Qed.

Lemma last_char_app (a b : string) :
  b <> "" -> last_char (a +:+ b) = last_char b.
Proof.
  intros Hb. induction a as [|c a IH]; [reflexivity|].
  simpl. rewrite IH. destruct (a +:+ b) eqn:E; [|reflexivity].
  destruct a; [simpl in E; congruence | discriminate].
Qed.

End StringFacts.

(** Closes goals [s <> ""] for appends that end in a known non-empty part. *)
Ltac nonempty :=
  repeat apply app_nonempty_r; first [assumption | discriminate].

(** ** The split of the template *)

Section SplitFacts.

#[local] Arguments starts_with_hint : simpl never.

Lemma hint_not_space (s : string) (c : ascii) (rest : string) :
  s = String c rest -> starts_with_hint s = true -> Py.isspace_char c = false.
Proof.
  intros -> Hs. unfold starts_with_hint in Hs.
  destruct rest as [|k rest]; [discriminate|].
  apply andb_true_iff in Hs as [Hc _].
  apply Ascii.eqb_eq in Hc. subst c. reflexivity.
Qed.

(** A match at the start of [s] ends with the first [%h], and only
    whitespace precedes it. *)
Lemma match_here_first_hint (s : string) (n : nat) :
  match_here s = Some n ->
  exists p, n = (p + 2)%nat /\ Spec.first_hint s = Some p
            /\ Py.all_space (Py.take p s) = true.
Proof.
  revert n; induction s as [|c s IH]; intros n; simpl; [discriminate|].
  destruct (Py.isspace_char c) eqn:Ec.
  - assert (Hno : starts_with_hint (String c s) = false).
    { destruct (starts_with_hint (String c s)) eqn:Hs; [|reflexivity].
      rewrite (hint_not_space _ c s eq_refl Hs) in Ec. discriminate. }
    rewrite Hno. destruct (match_here s) as [m|] eqn:Em; [|discriminate].
    intros [= <-]. destruct (IH m eq_refl) as (p & -> & Hp & Hsp).
    exists (S p). rewrite Hp. simpl. rewrite Ec, Hsp. auto.
  - destruct (starts_with_hint (String c s)) eqn:Hs; [|discriminate].
    intros [= <-]. exists 0%nat. auto.
Qed.

Lemma first_hint_match_here (s : string) (p : nat) :
  Spec.first_hint s = Some p -> Py.all_space (Py.take p s) = true ->
  match_here s = Some (p + 2)%nat.
Proof.
  revert p; induction s as [|c s IH]; intros p; simpl; [discriminate|].
  destruct (starts_with_hint (String c s)) eqn:Hs.
  - intros [= <-] _. rewrite (hint_not_space _ c s eq_refl Hs). reflexivity.
  - destruct (Spec.first_hint s) as [q|] eqn:Eq; simpl; [|discriminate].
    intros [= <-]. simpl. intros Hsp.
    apply andb_true_iff in Hsp as [Hc Hsp]. rewrite Hc.
    rewrite (IH q eq_refl Hsp). reflexivity.
Qed.

(** The leftmost match starts where the whitespace run before the first
    [%h] starts, and ends with that [%h]. *)
Lemma search_first_hint (s : string) :
  search s =
  match Spec.first_hint s with
  | None => None
  | Some p =>
      let i := String.length (Py.rstrip (Py.take p s)) in
      Some (i, (p + 2 - i)%nat)
  end.
Proof.
  induction s as [|c s IH]; [reflexivity|].
  cbn [search]. destruct (match_here (String c s)) as [n|] eqn:Em.
  - destruct (match_here_first_hint _ _ Em) as (p & -> & Hp & Hsp).
    rewrite Hp. cbv zeta.
    apply rstrip_empty_iff in Hsp. rewrite Hsp. simpl.
    do 2 f_equal. lia.
  - rewrite IH. cbn [Spec.first_hint].
    destruct (starts_with_hint (String c s)) eqn:Hs.
    + rewrite (first_hint_match_here (String c s) 0) in Em; [discriminate| |reflexivity].
      simpl. now rewrite Hs.
    + destruct (Spec.first_hint s) as [q|] eqn:Eq; simpl; [|reflexivity].
      destruct (Py.rstrip (Py.take q s)) as [|b r] eqn:Er.
      * destruct (Py.isspace_char c) eqn:Ec.
        -- apply rstrip_empty_iff in Er.
           rewrite (first_hint_match_here (String c s) (S q)) in Em;
             [discriminate| |].
           ++ simpl. now rewrite Hs, Eq.
           ++ simpl. now rewrite Ec, Er.
        -- reflexivity.
      * reflexivity.
Qed.

(** The first [%h] is really there. *)
Lemma first_hint_drop (s : string) (p : nat) :
  Spec.first_hint s = Some p ->
  Py.drop p s = "%h" +:+ Py.drop (p + 2) s /\ String.length (Py.take p s) = p.
Proof.
  revert p; induction s as [|c s IH]; intros p; simpl; [discriminate|].
  destruct (starts_with_hint (String c s)) eqn:Hs.
  - intros [= <-]. unfold starts_with_hint in Hs.
    destruct s as [|k s]; [discriminate|].
    apply andb_true_iff in Hs as [Hc Hk].
    apply Ascii.eqb_eq in Hc, Hk. subst. auto.
  - destruct (Spec.first_hint s) as [q|] eqn:Eq; simpl; [|discriminate].
    intros [= <-]. simpl. destruct (IH q eq_refl) as [-> ->]. auto.
Qed.

End SplitFacts.

Section SplitTheorem.

#[local] Arguments starts_with_hint : simpl never.

Lemma rstrip_length_le (s : string) :
  (String.length (Py.rstrip s) <= String.length s)%nat.
Proof.
  induction s as [|c s IH]; simpl; [lia|].
  destruct (Py.rstrip s); [destruct (Py.isspace_char c)|]; simpl in *; lia.
Qed.

Lemma str_drop_app_length (a b : string) : Py.drop (String.length a) (a +:+ b) = b.
Proof. induction a as [|c a IH]; simpl; [now destruct b | exact IH]. Qed.

Lemma first_hint_tail (c : ascii) (s : string) :
  Spec.first_hint (String c s) = None ->
  starts_with_hint (String c s) = false /\ Spec.first_hint s = None.
Proof.
  simpl. destruct (starts_with_hint (String c s)); [discriminate|].
  destruct (Spec.first_hint s); [discriminate | auto].
Qed.

(** The code's split is the split at the first [%h]. *)
Lemma split_format_spec (output_format : string) :
  split_format output_format = Spec.split output_format.
Proof.
  unfold split_format, re_split, Spec.split.
  rewrite search_first_hint.
  destruct (Spec.first_hint output_format) as [p|] eqn:Ep; [|reflexivity].
  cbv zeta. set (i := String.length (Py.rstrip (Py.take p output_format))).
  assert (Hi : (i <= p)%nat).
  { pose proof (rstrip_length_le (Py.take p output_format)).
    pose proof (str_take_length_le p output_format). lia. }
  f_equal.
  - rewrite (rstrip_prefix (Py.take p output_format)). fold i.
    symmetry. apply str_take_take. exact Hi.
  - unfold Py.concat. simpl.
    rewrite <- str_drop_drop. apply str_take_drop.
Qed.

(** A template without [%h] expands without reading the hint. *)
Lemma expand_without_hint (n : nat) :
  forall (s : string) (its : Items) (h : string),
    (String.length s <= n)%nat -> Spec.first_hint s = None ->
    expand s (<[ "h"%char := h ]> its) = expand s its.
Proof.
  induction n as [|n IH]; intros s its h Hn Hs.
  - destruct s; [reflexivity | simpl in Hn; lia].
  - destruct s as [|c [|k rest]]; try reflexivity.
    apply first_hint_tail in Hs as [Hc Hs].
    pose proof (first_hint_tail _ _ Hs) as [_ Hrest].
    change (expand (String c (String k rest)) ?m) with
      (if Ascii.eqb c "%" && negb (Ascii.eqb k (ascii_of_nat 10))
       then items_get m k +:+ expand rest m
       else String c (expand (String k rest) m)).
    simpl in Hn.
    rewrite (IH rest its h) by (lia || assumption).
    rewrite (IH (String k rest) its h) by (simpl; lia || assumption).
    destruct (Ascii.eqb c "%") eqn:Ec; [|reflexivity].
    destruct (negb (Ascii.eqb k (ascii_of_nat 10))); [|reflexivity].
    simpl. f_equal. unfold items_get. f_equal.
    apply lookup_insert_ne. intros <-.
    unfold starts_with_hint in Hc. rewrite Ec in Hc. discriminate.
Qed.

(** C7.  The template is split at the first [%h] together with the run of
    whitespace just before it: the left segment is everything before that
    run, the right segment is the run, [%h] and everything after.  A
    template without [%h] is its own left segment, its right segment is
    empty, and what is written for the line does not depend on the hint. *)
Theorem split_format_at_first_hint (output_format : string) :
  split_format output_format = Spec.split output_format
  /\ match Spec.first_hint output_format with
     | Some p =>
         exists run : string,
           Py.all_space run = true
           /\ Py.take p output_format = (split_format output_format).1 +:+ run
           /\ (split_format output_format).2
              = run +:+ "%h" +:+ Py.drop (p + 2) output_format
           /\ forall c, last_char (split_format output_format).1 = Some c ->
                        Py.isspace_char c = false
     | None =>
         split_format output_format = (output_format, "")
         /\ forall (its : Items) (h : string),
              expand (split_format output_format).1 (<[ "h"%char := h ]> its)
              = expand (split_format output_format).1 its
              /\ Py.rstrip (expand (split_format output_format).2
                              (<[ "h"%char := h ]> its)) = ""
     end.
Proof.
  split; [apply split_format_spec|].
  rewrite split_format_spec. unfold Spec.split.
  destruct (Spec.first_hint output_format) as [p|] eqn:Ep.
  - cbv zeta. simpl fst. simpl snd.
    set (before := Py.rstrip (Py.take p output_format)).
    exists (Py.drop (String.length before) (Py.take p output_format)).
    assert (Hp : Py.take p output_format
                 = before +:+ Py.drop (String.length before) (Py.take p output_format)).
    { rewrite <- (str_take_drop (String.length before) (Py.take p output_format)) at 1.
      f_equal. symmetry. apply rstrip_prefix. }
    repeat split.
    + apply rstrip_removed_space.
    + exact Hp.
    + destruct (first_hint_drop _ _ Ep) as [Hd _].
      rewrite <- (str_take_drop p output_format) at 1.
      rewrite Hp at 1. rewrite str_app_assoc, str_drop_app_length, Hd. reflexivity.
    + intros c. apply rstrip_last_char.
  - split; [reflexivity|]. intros its h. simpl. split; [|reflexivity].
    apply (expand_without_hint (String.length output_format)); [lia | exact Ep].
Qed.

End SplitTheorem.

(** ** The backward scan *)

Section ScanFacts.
Context `{Host}.

Lemma extendleft_reverse {A} (deque buffer : list A) :
  extendleft deque buffer = reverse buffer ++ deque.
Proof.
  unfold extendleft. revert deque.
  induction buffer as [|x buffer IH]; intros deque; simpl; [reflexivity|].
  rewrite IH, reverse_cons, <- app_assoc. reflexivity.
Qed.

Lemma stroke_count_sum (window : list Translation) :
  stroke_count window = sum_list (map (fun t => length (rtfcre t)) window).
Proof. induction window as [|t w IH]; simpl; [reflexivity | now rewrite <- IH]. Qed.

(** The loop, started in any state and followed by the final [if buffer:],
    emits the lookups of the walk. *)
Lemma scan_loop_walk (l buffer deque : list Translation)
    (suggestions : list (list Outline)) :
  (let '(b, d, s) := foldl scan_body (buffer, deque, suggestions) l in
   match b with
   | [] => s
   | _ => s ++ [get_suggestions (extendleft d b)]
   end)
  = suggestions ++ map get_suggestions (Spec.walk l deque (reverse buffer)).
Proof.
  revert buffer deque suggestions.
  induction l as [|entry l IH]; intros buffer deque suggestions.
  - cbn [foldl Spec.walk]. destruct buffer as [|x buffer].
    + simpl. now rewrite app_nil_r.
    + rewrite extendleft_reverse.
      destruct (reverse (x :: buffer)) as [|y run] eqn:E; [|reflexivity].
      rewrite reverse_cons in E. now apply app_nil in E as [_ ?].
  - cbn [foldl Spec.walk]. unfold scan_body at 2.
    destruct (is_fingerspelling entry).
    + rewrite IH, reverse_app. reflexivity.
    + destruct buffer as [|x buffer].
      * change (reverse []) with (@nil Translation). cbn [app].
        destruct (is_whitespace entry); cbn [negb]; cbv iota.
        -- rewrite IH. reflexivity.
        -- rewrite IH, <- app_assoc. reflexivity.
      * rewrite extendleft_reverse.
        destruct (reverse (x :: buffer)) as [|y run] eqn:E.
        { rewrite reverse_cons in E. now apply app_nil in E as [_ ?]. }
        destruct (is_whitespace entry); cbn [negb]; cbv iota.
        -- rewrite IH, <- app_assoc. reflexivity.
        -- rewrite IH, <- !app_assoc. reflexivity.
Qed.

(** The code's scan computes the tiers of the specification's walk. *)
Lemma scan_tiers (snapshot : list Translation) :
  scan snapshot = Spec.tiers snapshot.
Proof.
  unfold scan, Spec.tiers, Spec.windows.
  pose proof (scan_loop_walk (reverse snapshot) [] [] []) as Hw.
  simpl in Hw. exact Hw.
Qed.

(** Every window of the walk is a suffix of the history walked so far. *)
Lemma walk_suffix (l window run w : list Translation) :
  w ∈ Spec.walk l window run -> w `suffix_of` (reverse l ++ run ++ window).
Proof.
  revert window run. induction l as [|entry l IH]; intros window run; simpl.
  - destruct run; [intros Hw; inversion Hw|].
    intros Hw%list_elem_of_singleton. subst w. reflexivity.
  - rewrite reverse_cons, <- app_assoc. simpl.
    destruct (is_fingerspelling entry).
    + intros Hw. apply IH in Hw. exact Hw.
    + rewrite !elem_of_app. intros [Hw|[Hw|Hw]].
      * destruct run; [inversion Hw|].
        apply list_elem_of_singleton in Hw. subst w.
        exists (reverse l ++ [entry]). now rewrite <- app_assoc.
      * destruct (is_whitespace entry); [inversion Hw|].
        apply list_elem_of_singleton in Hw. subst w.
        exists (reverse l). reflexivity.
      * apply IH in Hw. exact Hw.
Qed.

Lemma windows_suffix (snapshot w : list Translation) :
  w ∈ Spec.windows snapshot -> w `suffix_of` snapshot.
Proof.
  unfold Spec.windows. intros Hw%walk_suffix.
  rewrite reverse_involutive, app_nil_r in Hw. exact Hw.
Qed.

Lemma render_tier_text (k : nat) (outlines : list Outline) :
  render_tier (Z.of_nat k) outlines = Spec.tier_text k outlines.
Proof. unfold render_tier, Spec.tier_text, Py.mul_char. now rewrite Nat2Z.id. Qed.

Lemma render_enumerate (k : nat) (tiers : list (list Outline)) :
  omap (fun '(i, outlines) =>
          match outlines with
          | [] => None
          | _ => Some (render_tier i outlines)
          end)
       (enumerate (Z.of_nat k) tiers)
  = map (fun tier => Spec.tier_text tier.1 tier.2)
      (filter (fun tier => Spec.nonempty_tier tier = true)
         (zip (seq k (length tiers)) tiers)).
Proof.
  revert k. induction tiers as [|t tiers IH]; intros k; [reflexivity|].
  simpl. replace (Z.of_nat k + 1)%Z with (Z.of_nat (S k)) by lia.
  rewrite IH. destruct t as [|o t].
  - rewrite filter_cons_False; [reflexivity | simpl; discriminate].
  - rewrite filter_cons_True by reflexivity.
    simpl. now rewrite render_tier_text.
Qed.

Lemma render_hint_text (tiers : list (list Outline)) :
  render tiers = Spec.hint_text tiers.
Proof. unfold render, Spec.hint_text. now rewrite (render_enumerate 1). Qed.

(** C6.  An outline is among the results of a lookup exactly when the host
    suggests it for the window's text and it has strictly fewer strokes
    than the window, whose count is the sum of the lengths of its entries'
    chord codes; and every tier of a scan is such a lookup, for a window
    that is a suffix of the snapshot. *)
Theorem suggestions_strictly_shorter (window snapshot : list Translation) :
  (forall outline : Outline,
     outline ∈ get_suggestions window <->
     (exists suggestion,
        suggestion ∈ engine_get_suggestions (retroformat window)
        /\ outline ∈ steno_list suggestion)
     /\ (length outline < sum_list (map (fun t => length (rtfcre t)) window))%nat)
  /\ (forall tier : list Outline,
        tier ∈ scan snapshot ->
        exists w : list Translation,
          w `suffix_of` snapshot /\ tier = get_suggestions w
          /\ Forall (fun outline : Outline =>
                       (length outline < stroke_count w)%nat) tier).
Proof.
  assert (Hmem : forall w (outline : Outline),
    outline ∈ get_suggestions w <->
    (exists suggestion,
       suggestion ∈ engine_get_suggestions (retroformat w)
       /\ outline ∈ steno_list suggestion)
    /\ (length outline < stroke_count w)%nat).
  { intros w outline. unfold get_suggestions.
    rewrite list_elem_of_bind. split.
    - intros (suggestion & Ho & Hs).
      apply list_elem_of_bind in Ho as (o & Ho & Hin).
      destruct (Nat.ltb_spec (length o) (stroke_count w)) as [Hlt|Hge].
      + apply list_elem_of_singleton in Ho. subst o. eauto.
      + inversion Ho.
    - intros ((suggestion & Hs & Ho) & Hlt).
      exists suggestion. split; [|exact Hs].
      apply list_elem_of_bind. exists outline. split; [|exact Ho].
      apply Nat.ltb_lt in Hlt. rewrite Hlt. now apply list_elem_of_singleton. }
  split.
  - intros outline. rewrite <- stroke_count_sum. apply Hmem.
  - intros tier. rewrite scan_tiers. unfold Spec.tiers.
    intros (w & -> & Hw)%list_elem_of_fmap.
    exists w. split; [now apply windows_suffix|]. split; [reflexivity|].
    apply Forall_forall. intros outline Ho. now apply Hmem in Ho as [_ ?].
Qed.

End ScanFacts.

(** ** The handler, one event at a time *)


Section HandlerFacts.
Context `{Host} `{PyFloat}.

Lemma event_items_settings (self self' : TapeyTape) stroke translations now :
  settings self = settings self' ->
  last_stroke_time self = last_stroke_time self' ->
  event_items self stroke translations now
  = event_items self' stroke translations now
  /\ examine self stroke translations = examine self' stroke translations.
Proof.
  unfold settings. intros [= Hu Hw Hs Hl Hr Hn] Ht.
  unfold event_items, examine, output_of, bar, bar_width, elapsed, steno,
    pressed_keys.
  rewrite Hu, Hw, Hs, Hn, Ht. auto.
Qed.

Lemma add_back_normal (self : TapeyTape) stroke translations :
  was_fingerspelling self = false ->
  add_back self stroke translations = Ok self.
Proof. unfold add_back. now intros ->. Qed.

Lemma add_back_pending (self : TapeyTape) stroke translations (old : Items) :
  was_fingerspelling self = true ->
  items self = Some old ->
  let old' := if suppress_suggestions stroke translations
              then <[ "h"%char := "" ]> old else old in
  exists self1,
    add_back self stroke translations = Ok self1
    /\ file self1
       = file self ++ [Py.rstrip (expand (right_format self) old'); nl]
    /\ settings self1 = settings self
    /\ last_stroke_time self1 = last_stroke_time self.
Proof.
  intros Hw Hi old'. unfold add_back. rewrite Hw, Hi.
  eexists. split; [reflexivity|]. simpl.
  rewrite <- app_assoc. auto.
Qed.

(** The handler after its first block. *)
Lemma on_stroked_after (self self1 : TapeyTape) stroke translations now :
  add_back self stroke translations = Ok self1 ->
  let its := event_items self1 stroke translations now in
  let fingerspelling := (examine self1 stroke translations).2 in
  exists self',
    on_stroked self stroke translations now = Ok self'
    /\ file self'
       = file self1 ++ [expand (left_format self1) its]
         ++ (if fingerspelling then []
             else [Py.rstrip (expand (right_format self1) its); nl])
    /\ items self' = Some its
    /\ was_fingerspelling self' = fingerspelling
    /\ settings self' = settings self1
    /\ last_stroke_time self' = Some now.
Proof.
  intros Hab its fingerspelling. unfold on_stroked. rewrite Hab. simpl bind.
  fold its. subst fingerspelling.
  destruct (examine self1 stroke translations) as [[output suggestions] fs].
  simpl snd. destruct fs; simpl; eexists; (split; [reflexivity|]); simpl;
    rewrite <- ?app_assoc; auto.
Qed.


(** One event, from any consistent state. *)
Lemma on_stroked_spec (self : TapeyTape) stroke translations now :
  consistent self = true ->
  let its := event_items self stroke translations now in
  let fingerspelling := (examine self stroke translations).2 in
  exists self',
    on_stroked self stroke translations now = Ok self'
    /\ file self'
       = file self ++ resolved self stroke translations
         ++ [expand (left_format self) its]
         ++ (if fingerspelling then []
             else [Py.rstrip (expand (right_format self) its); nl])
    /\ items self' = Some its
    /\ was_fingerspelling self' = fingerspelling
    /\ settings self' = settings self
    /\ last_stroke_time self' = Some now.
Proof.
  intros Hc its fingerspelling. unfold consistent in Hc.
  assert (Hab : exists self1,
    add_back self stroke translations = Ok self1
    /\ file self1 = file self ++ resolved self stroke translations
    /\ settings self1 = settings self
    /\ last_stroke_time self1 = last_stroke_time self).
  { unfold resolved. destruct (was_fingerspelling self) eqn:Hw.
    - destruct (items self) as [old|] eqn:Hi; [|discriminate].
      apply (add_back_pending self stroke translations old Hw Hi).
    - exists self. rewrite add_back_normal by exact Hw.
      now rewrite app_nil_r. }
  destruct Hab as (self1 & Hab & Hf & Hs & Ht).
  destruct (on_stroked_after self self1 stroke translations now Hab)
    as (self' & Hon & Hf' & Hi' & Hw' & Hs' & Ht').
  destruct (event_items_settings self1 self stroke translations now Hs Ht)
    as [Hits Hex].
  assert (Hl : left_format self1 = left_format self)
    by (unfold settings in Hs; congruence).
  assert (Hr : right_format self1 = right_format self)
    by (unfold settings in Hs; congruence).
  rewrite Hits, Hex, Hl, Hr, Hf in *.
  exists self'. rewrite <- app_assoc in Hf'.
  repeat split; try assumption. congruence.
Qed.

Lemma on_stroked_consistent (self self' : TapeyTape) stroke translations now :
  on_stroked self stroke translations now = Ok self' ->
  consistent self' = true.
Proof.
  unfold on_stroked. destruct (add_back self stroke translations) as [self1|] eqn:Hab;
    [|discriminate].
  destruct (on_stroked_after self self1 stroke translations now Hab)
    as (self2 & Hon & _ & Hi & _).
  unfold on_stroked in Hon. rewrite Hab in Hon. intros Heq.
  rewrite Hon in Heq. injection Heq as <-.
  unfold consistent. rewrite Hi. apply orb_true_r.
Qed.

(** The field map of an event. *)
Lemma make_items_lookup (b s t h : string) :
  make_items b s t h !! "b"%char = Some b
  /\ make_items b s t h !! "s"%char = Some s
  /\ make_items b s t h !! "t"%char = Some t
  /\ make_items b s t h !! "h"%char = Some h.
Proof. repeat split; reflexivity. Qed.

End HandlerFacts.

(** ** The timing bar *)

Section BarFacts.
Context `{PyFloat}.

Lemma int_of_float_floor (x : Q) : (0 <= x)%Q -> int_of_float x = Qfloor x.
Proof.
  destruct x as [n d]. unfold Qle, int_of_float, Qfloor. simpl.
  intros Hn. apply Z.quot_div_nonneg; lia.
Qed.

(** C8.  For a non-negative elapsed time the width of the bar is
    [min(floor(elapsed / time_unit), max_width)], the division being the
    one of floats; the bar is that many markers right-justified in a field
    of [max_width] characters; the width never exceeds [max_width] and does
    not decrease when the elapsed time grows. *)
Theorem bar_width_clamped_monotone (self : TapeyTape) (seconds seconds' : Q) :
  (0 < bar_time_unit self)%Q ->
  (0 <= bar_max_width self)%Z ->
  (0 <= seconds)%Q ->
  (seconds <= seconds')%Q ->
  let width := bar_width self seconds in
  width = Z.min (Qfloor (fdiv seconds (bar_time_unit self))) (bar_max_width self)
  /\ bar self seconds
     = Py.replicate (Z.to_nat (bar_max_width self - width)) " "
       +:+ Py.replicate (Z.to_nat width) "+"
  /\ Z.of_nat (String.length (bar self seconds)) = bar_max_width self
  /\ (0 <= width <= bar_max_width self)%Z
  /\ (width <= bar_width self seconds')%Z.
Proof.
  intros Hu Hm Hs Hle width.
  assert (Hq : (0 <= fdiv seconds (bar_time_unit self))%Q)
    by (apply fdiv_nonneg; assumption).
  assert (Hq' : (0 <= fdiv seconds' (bar_time_unit self))%Q).
  { apply fdiv_nonneg; [|assumption]. apply (Qle_trans _ seconds); assumption. }
  assert (Hw : width
               = Z.min (Qfloor (fdiv seconds (bar_time_unit self)))
                   (bar_max_width self)).
  { subst width. unfold bar_width. now rewrite int_of_float_floor. }
  assert (H0 : (0 <= Qfloor (fdiv seconds (bar_time_unit self)))%Z).
  { change 0%Z with (Qfloor 0). now apply Qfloor_resp_le. }
  assert (Hbar : bar self seconds
     = Py.replicate (Z.to_nat (bar_max_width self - width)) " "
       +:+ Py.replicate (Z.to_nat width) "+").
  { unfold bar, Py.rjust, Py.mul_char. fold width.
    rewrite str_replicate_length, Z2Nat.id by lia. reflexivity. }
  repeat split; try assumption; try lia.
  - rewrite Hbar, str_app_length, !str_replicate_length. lia.
  - rewrite Hw. unfold bar_width. rewrite int_of_float_floor by assumption.
    pose proof (Qfloor_resp_le _ _
      (fdiv_mono seconds seconds' (bar_time_unit self) Hle Hu)). lia.
Qed.

End BarFacts.

(** ** The deferred right segment *)

Section DeferralFacts.
Context `{Host} `{PyFloat}.

Lemma suppress_suggestions_iff (stroke : Stroke) (translations : list Translation) :
  suppress_suggestions stroke translations = true <->
  translations = []
  \/ exists newest, last translations = Some newest
       /\ (is_fingerspelling newest = true
           \/ is_correction stroke = true
           \/ replaced newest <> []).
Proof.
  unfold suppress_suggestions.
  destruct (last translations) as [newest|] eqn:El.
  - rewrite !orb_true_iff. split.
    + intros [[Hf|Hc]|Hr]; right; exists newest; split; auto.
      right; right. now destruct (replaced newest).
    + intros [->|(n & [= <-] & [Hf|[Hc|Hr]])]; [discriminate|auto..].
      right. now destruct (replaced newest).
  - apply last_None in El. subst. tauto.
Qed.

(** C1, as the code has it.  When an event arrives while the previous
    event's right segment is deferred, the hint of the previous field map
    is cleared before that segment is expanded and written if and only if
    the snapshot is empty, or its newest entry is fingerspelling, or the
    stroke is a correction, or the newest entry replaced something;
    otherwise the segment is written with the original hint. *)
Theorem deferred_hint_cleared_iff (self : TapeyTape) (stroke : Stroke)
    (translations : list Translation) (now : Z) (old : Items) :
  was_fingerspelling self = true ->
  items self = Some old ->
  (suppress_suggestions stroke translations = true <->
   translations = []
   \/ exists newest, last translations = Some newest
        /\ (is_fingerspelling newest = true
            \/ is_correction stroke = true
            \/ replaced newest <> []))
  /\ exists self' later,
       on_stroked self stroke translations now = Ok self'
       /\ file self'
          = file self
            ++ [Py.rstrip
                  (expand (right_format self)
                     (if suppress_suggestions stroke translations
                      then <[ "h"%char := "" ]> old else old));
                nl]
            ++ later.
Proof.
  intros Hw Hi. split; [apply suppress_suggestions_iff|].
  assert (Hc : consistent self = true).
  { unfold consistent. rewrite Hi. apply orb_true_r. }
  destruct (on_stroked_spec self stroke translations now Hc)
    as (self' & Hon & Hf & _).
  exists self'. eexists. split; [exact Hon|].
  rewrite Hf. unfold resolved. rewrite Hw, Hi. reflexivity.
Qed.

(** C4.  For a snapshot whose newest entry is not whitespace-only, the
    tiers are those of the walk from the newest entry to the oldest
    (fingerspelling runs buffered and spliced in their original order, one
    lookup at each break, one after each pushed entry that is not
    whitespace-only, one at the end for a run of oldest entries), and the
    hint numbers them from 1 in emission order, leaves out the empty ones,
    renders tier [i] with [i] markers and joins the rest with single
    spaces; this hint is the [h] field of the event, unless the stroke is a
    correction. *)
Theorem hint_by_backward_scan (snapshot : list Translation)
    (newest : Translation) :
  last snapshot = Some newest ->
  is_whitespace newest = false ->
  scan snapshot = Spec.tiers snapshot
  /\ hint snapshot newest = Spec.hint_text (Spec.tiers snapshot)
  /\ forall (self : TapeyTape) (stroke : Stroke) (now : Z),
       is_correction stroke = false ->
       event_items self stroke snapshot now !! "h"%char
       = Some (Spec.hint_text (Spec.tiers snapshot)).
Proof.
  intros Hl Hws.
  assert (Hh : hint snapshot newest = Spec.hint_text (Spec.tiers snapshot)).
  { unfold hint. rewrite Hws. simpl negb. cbv iota.
    rewrite render_hint_text, scan_tiers. reflexivity. }
  split; [apply scan_tiers|]. split; [exact Hh|].
  intros self stroke now Hk. unfold event_items, examine.
  rewrite Hl, Hk, Hh. apply make_items_lookup.
Qed.

(** C9.  On a correction stroke, or with an empty snapshot, the output text
    is the single character [*], the hint is empty, and no deferral is
    pending after the event. *)
Theorem correction_or_empty_star (self : TapeyTape) (stroke : Stroke)
    (translations : list Translation) (now : Z) :
  consistent self = true ->
  is_correction stroke = true \/ translations = [] ->
  exists self' its,
    on_stroked self stroke translations now = Ok self'
    /\ items self' = Some its
    /\ its !! "t"%char = Some "*"
    /\ its !! "h"%char = Some ""
    /\ was_fingerspelling self' = false.
Proof.
  intros Hc Hk.
  assert (Hex : examine self stroke translations = ("*", "", false)).
  { unfold examine. destruct Hk as [Hk| ->]; [|reflexivity].
    rewrite Hk. now destruct (last translations). }
  destruct (on_stroked_spec self stroke translations now Hc)
    as (self' & Hon & _ & Hi & Hw & _).
  exists self'. eexists. split; [exact Hon|]. split; [exact Hi|].
  unfold event_items. rewrite Hex in *. simpl in Hw.
  repeat split; try assumption; apply make_items_lookup.
Qed.

End DeferralFacts.

(** ** Runs of events *)

Section RunFacts.
Context `{Host} `{PyFloat}.

Lemma log_lines_app (l1 l2 : list (string * string)) :
  log_lines (l1 ++ l2) = log_lines l1 ++ log_lines l2.
Proof. unfold log_lines. now rewrite map_app, concat_app. Qed.

Lemma stop_pending (self : TapeyTape) (its : Items) :
  was_fingerspelling self = true -> items self = Some its ->
  exists self',
    stop self = Ok self'
    /\ file self'
       = file self ++ [Py.rstrip (expand (right_format self) its); nl].
Proof.
  intros Hw Hi. unfold stop. rewrite Hw, Hi. eexists. split; [reflexivity|].
  simpl. now rewrite <- app_assoc.
Qed.


Lemma shape_consistent start n self : shape start n self -> consistent self = true.
Proof.
  intros [lines Hs]. unfold consistent.
  destruct (was_fingerspelling self); [|reflexivity].
  destruct Hs as (its & -> & _). reflexivity.
Qed.

Lemma handle_shape (start : list string) (n : nat) (self : TapeyTape) (e : Event) :
  shape start n self ->
  exists self', handle self e = Ok self' /\ shape start (S n) self'.
Proof.
  intros Hs. pose proof (shape_consistent _ _ _ Hs) as Hc.
  destruct (on_stroked_spec self (ev_stroke e) (ev_translations e) (ev_now e) Hc)
    as (self' & Hon & Hf & Hi & Hw & Hset & _).
  exists self'. split; [exact Hon|].
  assert (Hl : left_format self' = left_format self)
    by (unfold settings in Hset; congruence).
  destruct Hs as [lines Hs]. unfold resolved in Hf. unfold shape.
  set (its := event_items self (ev_stroke e) (ev_translations e) (ev_now e)) in *.
  destruct (was_fingerspelling self) eqn:Hw0.
  - destruct Hs as (old & Hold & Hn & Hfile). rewrite Hold in Hf.
    set (old' := if suppress_suggestions (ev_stroke e) (ev_translations e)
                 then <[ "h"%char := "" ]> old else old) in *.
    set (done := lines ++ [(expand (left_format self) old,
                            Py.rstrip (expand (right_format self) old'))]).
    assert (Hdone : file self ++ [Py.rstrip (expand (right_format self) old'); nl]
                    = start ++ log_lines done).
    { subst done. rewrite log_lines_app, Hfile, <- !app_assoc. reflexivity. }
    assert (Hlen : length done = n).
    { subst done. rewrite length_app. simpl. lia. }
    rewrite Hw. destruct ((examine self (ev_stroke e) (ev_translations e)).2).
    + exists done, its. rewrite Hf, Hl, app_assoc, Hdone, <- !app_assoc.
      repeat split; [assumption | lia].
    + exists (done ++ [(expand (left_format self) its,
                        Py.rstrip (expand (right_format self) its))]).
      rewrite Hf, app_assoc, Hdone, log_lines_app, length_app, <- !app_assoc.
      simpl. split; [lia | reflexivity].
  - destruct Hs as [Hn Hfile]. rewrite Hw.
    destruct ((examine self (ev_stroke e) (ev_translations e)).2).
    + exists lines, its. rewrite Hf, Hl, Hfile, <- !app_assoc.
      repeat split; [assumption | lia].
    + exists (lines ++ [(expand (left_format self) its,
                         Py.rstrip (expand (right_format self) its))]).
      rewrite Hf, Hfile, log_lines_app, length_app, <- !app_assoc.
      simpl. split; [lia | reflexivity].
Qed.

Lemma run_shape (start : list string) (events : list Event) :
  forall (n : nat) (self : TapeyTape),
    shape start n self ->
    exists self', run self events = Ok self'
                  /\ shape start (n + length events) self'.
Proof.
  induction events as [|e events IH]; intros n self Hs.
  - exists self. rewrite Nat.add_0_r. auto.
  - destruct (handle_shape start n self e Hs) as (self1 & He & Hs1).
    destruct (IH (S n) self1 Hs1) as (self' & Hr & Hs').
    exists self'. simpl. rewrite He. simpl. split; [exact Hr|].
    replace (n + S (length events))%nat with (S n + length events)%nat by lia.
    exact Hs'.
Qed.

(** C3.  After any number of events the log holds one whole line per
    event, except that the line of the last event lacks its right segment
    and line break exactly when a deferral is pending: so at most one
    event is pending and every earlier one was resolved once.  In that
    case [stop] writes the withheld right segment and one line break, and
    otherwise it writes nothing. *)
Theorem one_pending_resolved_once (self : TapeyTape) (events : list Event) :
  was_fingerspelling self = false ->
  exists self' (lines : list (string * string)),
    run self events = Ok self'
    /\ if was_fingerspelling self' then
         exists its self'',
           items self' = Some its
           /\ S (length lines) = length events
           /\ file self'
              = file self ++ log_lines lines ++ [expand (left_format self') its]
           /\ stop self' = Ok self''
           /\ file self''
              = file self' ++ [Py.rstrip (expand (right_format self') its); nl]
       else
         length lines = length events
         /\ file self' = file self ++ log_lines lines
         /\ stop self' = Ok self'.
Proof.
  intros Hw.
  assert (Hs : shape (file self) 0 self).
  { exists []. rewrite Hw. simpl. now rewrite app_nil_r. }
  destruct (run_shape (file self) events 0 self Hs) as (self' & Hr & [lines Hs']).
  exists self', lines. split; [exact Hr|]. simpl in Hs'.
  destruct (was_fingerspelling self') eqn:Hw'.
  - destruct Hs' as (its & Hi & Hn & Hf).
    destruct (stop_pending self' its Hw' Hi) as (self'' & Hstop & Hf'').
    exists its, self''. auto.
  - destruct Hs' as [Hn Hf]. repeat split; try assumption.
    unfold stop. now rewrite Hw'.
Qed.

End RunFacts.

(** ** Fingerspelling runs *)

Section FingerspellingFacts.
Context `{Host} `{PyFloat}.

Lemma run_consistent (events : list Event) :
  forall self : TapeyTape,
    consistent self = true ->
    exists self', run self events = Ok self'
                  /\ consistent self' = true
                  /\ settings self' = settings self.
Proof.
  induction events as [|e events IH]; intros self Hc.
  - exists self. auto.
  - destruct (on_stroked_spec self (ev_stroke e) (ev_translations e) (ev_now e) Hc)
      as (self1 & Hon & _ & _ & _ & Hset & _).
    destruct (IH self1 (on_stroked_consistent _ _ _ _ _ Hon))
      as (self' & Hr & Hc' & Hset').
    exists self'. simpl. unfold handle. rewrite Hon. simpl.
    repeat split; [assumption.. | congruence].
Qed.

Lemma examine_fingerspelling_event (self : TapeyTape) (e : Event) :
  fingerspelling_event e = true ->
  (examine self (ev_stroke e) (ev_translations e)).2 = true
  /\ suppress_suggestions (ev_stroke e) (ev_translations e) = true.
Proof.
  unfold fingerspelling_event, examine, suppress_suggestions.
  intros [Hk Hl]%andb_true_iff.
  destruct (last (ev_translations e)) as [newest|]; [|discriminate].
  apply negb_true_iff in Hk. rewrite Hk, Hl. auto.
Qed.

Lemma examine_merge_event (self : TapeyTape) (m : Event) (newest : Translation) :
  merge_event m = true ->
  last (ev_translations m) = Some newest ->
  examine self (ev_stroke m) (ev_translations m)
  = (output_of self newest, hint (ev_translations m) newest, false)
  /\ suppress_suggestions (ev_stroke m) (ev_translations m)
     = match replaced newest with [] => false | _ => true end.
Proof.
  unfold merge_event, examine, suppress_suggestions.
  intros [Hk Hl]%andb_true_iff Hn. rewrite Hn in *.
  apply negb_true_iff in Hk, Hl. rewrite Hk, Hl. auto.
Qed.

Lemma output_of_settings (self self' : TapeyTape) (newest : Translation) :
  settings self = settings self' -> output_of self newest = output_of self' newest.
Proof. unfold settings, output_of. now intros [= _ _ -> _ _ _]. Qed.

(** C2, as the code has it.  In a run of events whose newest entries are
    all fingerspelling, followed by an event that is not a correction and
    whose newest entry is not fingerspelling: the right segment of each
    fingerspelling event is withheld when that event is handled and is
    written when the next event arrives; it is written with its hint
    cleared when the next event is again fingerspelling, and, for the last
    one, with its hint as it was when the final entry replaced nothing
    (cleared otherwise); the final event's line is written whole and its
    output text is that of its newest entry. *)
Theorem fingerspelling_run_resolution (self : TapeyTape)
    (events : list Event) (m : Event) (newest : Translation) :
  consistent self = true ->
  Forall (fun e => fingerspelling_event e = true) events ->
  merge_event m = true ->
  last (ev_translations m) = Some newest ->
  forall (i : nat) (e : Event),
    events !! i = Some e ->
    exists (before after : TapeyTape) (its : Items) (earlier : list string),
      run self (take i events) = Ok before
      /\ handle before e = Ok after
      /\ was_fingerspelling after = true
      /\ items after = Some its
      /\ file after = earlier ++ [expand (left_format self) its]
      /\ match events !! S i with
         | Some next =>
             exists (after_next : TapeyTape) (later : list string),
               handle after next = Ok after_next
               /\ file after_next
                  = file after
                    ++ [Py.rstrip (expand (right_format self)
                                     (<[ "h"%char := "" ]> its)); nl]
                    ++ later
         | None =>
             exists (final : TapeyTape) (its_m : Items),
               handle after m = Ok final
               /\ was_fingerspelling final = false
               /\ items final = Some its_m
               /\ its_m !! "t"%char = Some (output_of self newest)
               /\ file final
                  = file after
                    ++ [Py.rstrip (expand (right_format self)
                                     (match replaced newest with
                                      | [] => its
                                      | _ => <[ "h"%char := "" ]> its
                                      end)); nl;
                        expand (left_format self) its_m;
                        Py.rstrip (expand (right_format self) its_m); nl]
         end.
Proof.
  intros Hc Hfs Hm Hn i e Hi.
  destruct (run_consistent (take i events) self Hc) as (before & Hr & Hcb & Hsb).
  destruct (on_stroked_spec before (ev_stroke e) (ev_translations e) (ev_now e) Hcb)
    as (after & Hon & Hf & Hits & Hw & Hsa & _).
  pose proof (Forall_lookup_1 _ _ _ _ Hfs Hi) as He.
  destruct (examine_fingerspelling_event before e He) as [Hex _].
  rewrite Hex in Hw. rewrite Hex in Hf.
  assert (Hset : settings after = settings self) by congruence.
  assert (Hl : left_format before = left_format self)
    by (unfold settings in Hsb; congruence).
  assert (Hl' : left_format after = left_format self)
    by (unfold settings in Hset; congruence).
  assert (Hr' : right_format after = right_format self)
    by (unfold settings in Hset; congruence).
  pose proof (on_stroked_consistent _ _ _ _ _ Hon) as Hca.
  set (its := event_items before (ev_stroke e) (ev_translations e) (ev_now e)) in *.
  exists before, after, its. eexists.
  split; [exact Hr|]. split; [exact Hon|]. split; [exact Hw|].
  split; [exact Hits|]. split.
  { rewrite Hf, Hl, app_nil_r, !app_assoc. reflexivity. }
  destruct (events !! S i) as [next|] eqn:Hnext.
  - pose proof (Forall_lookup_1 _ _ _ _ Hfs Hnext) as Hne.
    destruct (examine_fingerspelling_event after next Hne) as [_ Hsup].
    destruct (on_stroked_spec after (ev_stroke next) (ev_translations next)
                (ev_now next) Hca) as (after_next & Hon' & Hf' & _).
    exists after_next. eexists. split; [exact Hon'|].
    rewrite Hf'. unfold resolved. rewrite Hw, Hits, Hsup, Hr'. reflexivity.
  - destruct (examine_merge_event after m newest Hm Hn) as [Hexm Hsup].
    destruct (on_stroked_spec after (ev_stroke m) (ev_translations m)
                (ev_now m) Hca) as (final & Hon' & Hf' & Hits' & Hw' & _).
    rewrite Hexm in Hw', Hf'. simpl in Hw', Hf'.
    exists final. eexists. split; [exact Hon'|]. split; [exact Hw'|].
    split; [exact Hits'|]. split.
    + unfold event_items. rewrite Hexm.
      rewrite (output_of_settings after self newest Hset).
      apply make_items_lookup.
    + rewrite Hf'. unfold resolved. rewrite Hw, Hits, Hsup, Hl', Hr'.
      destruct (replaced newest); reflexivity.
Qed.

(** C10, as the code has it.  The right segment is stripped of trailing
    whitespace before the line break on the three paths that write it (the
    resolution of a deferred segment at the next event, the immediate
    write, and the flush of [stop]): what is written is the segment without
    its final run of whitespace.  With the default template and an empty
    hint the right segment written is empty, so the line is the left
    segment as it is, ending with the output text: the left segment is not
    stripped. *)
Theorem right_segment_stripped (self : TapeyTape) (stroke : Stroke)
    (translations : list Translation) (now : Z) :
  consistent self = true ->
  exists (self' : TapeyTape) (its : Items),
    on_stroked self stroke translations now = Ok self'
    /\ items self' = Some its
    /\ (forall old : Items,
          was_fingerspelling self = true -> items self = Some old ->
          exists later : list string,
            file self'
            = file self
              ++ [Py.rstrip
                    (expand (right_format self)
                       (if suppress_suggestions stroke translations
                        then <[ "h"%char := "" ]> old else old));
                  nl]
              ++ later)
    /\ (was_fingerspelling self' = false ->
        file self'
        = file self ++ resolved self stroke translations
          ++ [expand (left_format self) its;
              Py.rstrip (expand (right_format self) its); nl])
    /\ (was_fingerspelling self' = true ->
        exists self'' : TapeyTape,
          stop self' = Ok self''
          /\ file self''
             = file self' ++ [Py.rstrip (expand (right_format self) its); nl])
    /\ (forall segment : string,
          exists removed : string,
            segment = Py.rstrip segment +:+ removed
            /\ Py.all_space removed = true
            /\ forall c, last_char (Py.rstrip segment) = Some c ->
                         Py.isspace_char c = false)
    /\ (forall (fields : Items) (b s t : string),
          fields !! "h"%char = Some "" ->
          fields !! "b"%char = Some b ->
          fields !! "s"%char = Some s ->
          fields !! "t"%char = Some t ->
          Py.rstrip (expand (split_format default_output_format).2 fields) = ""
          /\ expand (split_format default_output_format).1 fields
             +:+ Py.rstrip (expand (split_format default_output_format).2 fields)
             = b +:+ " |" +:+ s +:+ "| " +:+ t).
Proof.
  intros Hc.
  destruct (on_stroked_spec self stroke translations now Hc)
    as (self' & Hon & Hf & Hits & Hw & Hset & _).
  assert (Hr : right_format self' = right_format self)
    by (unfold settings in Hset; congruence).
  set (its := event_items self stroke translations now) in *.
  exists self', its. split; [exact Hon|]. split; [exact Hits|].
  assert (Hempty : forall fields : Items,
            fields !! "h"%char = Some "" ->
            Py.rstrip (expand (split_format default_output_format).2 fields) = "").
  { intros fields Hh. change (split_format default_output_format).2 with "  %h".
    simpl. unfold items_get. rewrite Hh. reflexivity. }
  split; [|split; [|split; [|split]]].
  - intros old Hw0 Hi0. unfold resolved in Hf. rewrite Hw0, Hi0 in Hf.
    eexists. rewrite Hf. reflexivity.
  - intros Hw'. rewrite Hw' in Hw. rewrite <- Hw in Hf. exact Hf.
  - intros Hw'. destruct (stop_pending self' its Hw' Hits) as (self'' & Hs & Hf'').
    exists self''. rewrite <- Hr. auto.
  - intros segment.
    exists (Py.drop (String.length (Py.rstrip segment)) segment).
    split; [|split].
    + rewrite (rstrip_prefix segment) at 1. symmetry. apply str_take_drop.
    + apply rstrip_removed_space.
    + intros c. apply rstrip_last_char.
  - intros fields b s t Hh Hb Hs Ht. split; [exact (Hempty fields Hh)|].
    rewrite (Hempty fields Hh), str_app_empty_r.
    change (split_format default_output_format).1 with "%b |%s| %t".
    simpl. unfold items_get. rewrite Hb, Hs, Ht. simpl.
    rewrite str_app_empty_r. reflexivity.
Qed.

End FingerspellingFacts.

(** ** Start-up *)

Section StartFacts.
Context `{Host} `{PyFloat}.

Lemma float_max_lower (a b : Q) : (b <= float_max a b)%Q.
Proof.
  unfold float_max. destruct (Qle_bool b a) eqn:E.
  - now apply Qle_bool_iff.
  - apply Qle_refl.
Qed.

(** [max(x, b)] on a finite [x] is the maximum of the two. *)
Lemma py_max_finite (q b : Q) : py_max (Finite q) b = Finite (float_max q b).
Proof.
  unfold py_max, float_max, float_gt. now destruct (Qle_bool b q).
Qed.

(** [max(x, b)] is nan, the positive infinity, or a finite number that
    is at least [b]. *)
Lemma py_max_lower (x : pyfloat) (b : Q) :
  match py_max x b with
  | Finite u => (b <= u)%Q
  | Inf negative => negative = false
  | NaN => True
  end.
Proof.
  destruct x as [q | [] | ].
  - rewrite py_max_finite. apply float_max_lower.
  - simpl. apply Qle_refl.
  - reflexivity.
  - exact I.
Qed.

(** Without a configuration file every field has its default. *)
Lemma start_missing :
  start Missing
  = Ok (mkConfig (Finite (2 # 10)) 5 "definition" "%b |%s| %t" "  %h"
          invert_numbers).
Proof. reflexivity. Qed.

Lemma bind_ok {A B} (r : result A) (k : A -> result B) (b : B) :
  bind r k = Ok b -> exists a, r = Ok a /\ k a = Ok b.
Proof. destruct r as [a|e]; simpl; [eauto | discriminate]. Qed.

Lemma except_ok {A} (P : A -> Prop) (r : result A) (d x : A) :
  except_Key_Value r d = Ok x -> P d -> (forall y, r = Ok y -> P y) -> P x.
Proof.
  destruct r as [y|[]]; simpl; try discriminate; intros [= <-]; auto.
Qed.

(** What a successful [start] guarantees. *)
Lemma start_ok (f : ConfigFile) (c : Config) :
  start f = Ok c ->
  match cfg_bar_time_unit c with
  | Finite unit => (1 # 100 <= unit)%Q
  | Inf negative => negative = false
  | NaN => True
  end
  /\ (0 <= cfg_bar_max_width c <= 100)%Z
  /\ (cfg_output_style c = "translation" \/ cfg_output_style c = "definition")
  /\ cfg_numbers c = invert_numbers.
Proof.
  unfold start. intros Hs.
  apply bind_ok in Hs as (config & _ & Hs).
  apply bind_ok in Hs as (unit & Hu & Hs).
  apply bind_ok in Hs as (width & Hw & Hs).
  apply bind_ok in Hs as (style & _ & Hs).
  apply bind_ok in Hs as (format & _ & Hs).
  destruct (split_format _) as [l r]. injection Hs as <-. simpl.
  split; [|split; [|split]]; auto.
  - apply (except_ok (fun u => match u with
                               | Finite unit => (1 # 100 <= unit)%Q
                               | Inf negative => negative = false
                               | NaN => True
                               end) _ _ _ Hu).
    + unfold Qle; simpl; lia.
    + intros y Hy. apply bind_ok in Hy as (v & _ & Hy).
      apply bind_ok in Hy as (x & _ & [= <-]). apply py_max_lower.
  - apply (except_ok (fun w => (0 <= w <= 100)%Z) _ _ _ Hw); [lia|].
    intros y Hy. apply bind_ok in Hy as (v & _ & Hy).
    apply bind_ok in Hy as (n & _ & [= <-]). lia.
  - destruct (json_is_str style "translation"); auto.
Qed.

(** The object [start] leaves has nothing pending and nothing written. *)
Lemma tape_of_fresh (c : Config) (self : TapeyTape) :
  tape_of c = Some self ->
  cfg_bar_time_unit c = Finite (bar_time_unit self)
  /\ settings self
     = (bar_time_unit self, cfg_bar_max_width c, cfg_output_style c,
        cfg_left_format c, cfg_right_format c, cfg_numbers c)
  /\ was_fingerspelling self = false
  /\ items self = None
  /\ last_stroke_time self = None
  /\ file self = [].
Proof.
  unfold tape_of. destruct (cfg_bar_time_unit c); try discriminate.
  intros [= <-]. simpl. repeat (split; [reflexivity|]). reflexivity.
Qed.

Lemma start_consistent (c : Config) (self : TapeyTape) :
  tape_of c = Some self -> consistent self = true.
Proof.
  intros (_ & _ & Hw & _)%tape_of_fresh. unfold consistent. now rewrite Hw.
Qed.

(** The two segments are those of the split of some template. *)
Lemma start_split (f : ConfigFile) (c : Config) :
  start f = Ok c ->
  exists output_format : string,
    (cfg_left_format c, cfg_right_format c) = split_format output_format.
Proof.
  unfold start. intros Hs.
  apply bind_ok in Hs as (config & _ & Hs).
  apply bind_ok in Hs as (unit & _ & Hs).
  apply bind_ok in Hs as (width & _ & Hs).
  apply bind_ok in Hs as (style & _ & Hs).
  apply bind_ok in Hs as (format & _ & Hs).
  match type of Hs with
  | context [split_format ?t] => exists t; destruct (split_format t)
  end.
  now injection Hs as <-.
Qed.

(** A nan time unit passes [max(..., 0.01)] and [start] succeeds with it;
    an integer overflows from [2^1024 - 2^970] on; an infinite width makes
    [start] raise and a nan width gives the default. *)
Lemma start_non_finite :
  (exists c, start (Parsed (JObj [("bar_time_unit", JFloat NaN)])) = Ok c
             /\ cfg_bar_time_unit c = NaN /\ tape_of c = None)
  /\ start (Parsed (JObj [("bar_time_unit", JInt (2 ^ 1024 - 2 ^ 970))]))
     = Raise OverflowError
  /\ (exists c,
        start (Parsed (JObj [("bar_time_unit", JInt (2 ^ 1024 - 2 ^ 970 - 1))]))
        = Ok c
        /\ cfg_bar_time_unit c = Finite (inject_Z (2 ^ 1024 - 2 ^ 971)))
  /\ start (Parsed (JObj [("bar_max_width", JFloat (Inf false))]))
     = Raise OverflowError
  /\ (exists c, start (Parsed (JObj [("bar_max_width", JFloat NaN)])) = Ok c
                /\ cfg_bar_max_width c = 5%Z).
Proof.
  split; [eexists; split; [reflexivity | split; reflexivity]|].
  split; [vm_compute; reflexivity|].
  split; [eexists; split; vm_compute; reflexivity|].
  split; [reflexivity|].
  eexists; split; reflexivity.
Qed.

(** C5, where the code departs from it.  A configuration file that cannot
    be parsed, one that does not hold an object, and one in which
    [bar_time_unit] is [null] each make [start] raise instead of falling
    back to the defaults. *)
Theorem start_raises_on_bad_config :
  start Malformed = Raise JSONDecodeError
  /\ start (Parsed (JArr [])) = Raise TypeError
  /\ start (Parsed (JObj [("bar_time_unit", JNull)])) = Raise TypeError
  /\ start (Parsed (JObj [("bar_max_width", JArr [])])) = Raise TypeError.
Proof. repeat split; reflexivity. Qed.

End StartFacts.

(** * Further properties of the code *)

(** ** Templates *)

Section TemplateFacts.

#[local] Arguments starts_with_hint : simpl never.

Lemma first_hint_take (s : string) :
  forall p i : nat,
    Spec.first_hint s = Some p -> (i <= p)%nat ->
    Spec.first_hint (Py.take i s) = None.
Proof.
  induction s as [|c s IH]; intros p i; [discriminate|].
  destruct i as [|i]; [reflexivity|].
  simpl Spec.first_hint at 1.
  destruct (starts_with_hint (String c s)) eqn:Hs.
  - intros [= <-] Hle. lia.
  - destruct (Spec.first_hint s) as [q|] eqn:Eq; [|discriminate].
    intros [= <-] Hle. simpl.
    rewrite (IH q i eq_refl) by lia.
    assert (Hno : starts_with_hint (String c (Py.take i s)) = false).
    { unfold starts_with_hint in *. destruct s as [|k s]; [now destruct i|].
      destruct i as [|i]; [reflexivity|]. exact Hs. }
    now rewrite Hno.
Qed.

(** X1.  The two segments of the split, put together again, are the
    template; and the left segment holds no [%h], so that its expansion
    does not depend on the hint, whatever the template. *)
Theorem split_format_lossless (output_format : string) :
  (split_format output_format).1 +:+ (split_format output_format).2
  = output_format
  /\ Spec.first_hint (split_format output_format).1 = None
  /\ forall (its : Items) (h : string),
       expand (split_format output_format).1 (<[ "h"%char := h ]> its)
       = expand (split_format output_format).1 its.
Proof.
  assert (Hnone : Spec.first_hint (split_format output_format).1 = None).
  { rewrite split_format_spec. unfold Spec.split.
    destruct (Spec.first_hint output_format) as [p|] eqn:Ep; [|exact Ep].
    simpl. rewrite rstrip_prefix.
    set (i := String.length (Py.rstrip (Py.take p output_format))).
    assert (Hi : (i <= p)%nat).
    { pose proof (rstrip_length_le (Py.take p output_format)).
      pose proof (str_take_length_le p output_format). lia. }
    rewrite str_take_take by exact Hi.
    apply (first_hint_take output_format p i Ep Hi). }
  split; [|split; [exact Hnone|]].
  - unfold split_format, re_split.
    destruct (search output_format) as [[i n]|]; simpl.
    + unfold Py.concat. simpl. rewrite <- str_drop_drop.
      rewrite str_take_drop. apply str_take_drop.
    + apply str_app_empty_r.
  - intros its h.
    apply (expand_without_hint (String.length (split_format output_format).1));
      [lia | exact Hnone].
Qed.

(** X2.  A template without any [%] is written as it is. *)
Theorem expand_plain (format_string : string) (its : Items) :
  has_char "%" format_string = false ->
  expand format_string its = format_string.
Proof.
  induction format_string as [|c rest IH]; [reflexivity|].
  simpl has_char. intros [Hc Hrest]%orb_false_iff.
  specialize (IH Hrest).
  destruct rest as [|k rest']; [reflexivity|].
  change (expand (String c (String k rest')) its) with
    (if Ascii.eqb c "%" && negb (Ascii.eqb k (ascii_of_nat 10))
     then items_get its k +:+ expand rest' its
     else String c (expand (String k rest') its)).
  rewrite Hc. cbn [andb]. now rewrite IH.
Qed.

(** X3.  With the entry [%] of the field map, a text in which every [%] is
    doubled expands to that text. *)
Theorem expand_escape_percent (s : string) (its : Items) :
  its !! "%"%char = Some "%" ->
  expand (escape_percent s) its = s.
Proof.
  intros Hp. induction s as [|c s IH]; [reflexivity|].
  simpl escape_percent. destruct (Ascii.eqb c "%") eqn:Ec.
  - apply Ascii.eqb_eq in Ec. subst c.
    change (expand (String "%" (String "%" (escape_percent s))) its) with
      (items_get its "%" +:+ expand (escape_percent s) its).
    unfold items_get. rewrite Hp, IH. reflexivity.
  - destruct (escape_percent s) as [|k r] eqn:Ee.
    + simpl in IH. now rewrite <- IH.
    + change (expand (String c (String k r)) its) with
        (if Ascii.eqb c "%" && negb (Ascii.eqb k (ascii_of_nat 10))
         then items_get its k +:+ expand r its
         else String c (expand (String k r) its)).
      rewrite Ec. cbn [andb]. now rewrite IH.
Qed.

End TemplateFacts.

(** ** The bar and the output text *)

Section FieldFacts.
Context `{Host} `{PyFloat}.

Lemma all_chars_app (p : ascii -> bool) (a b : string) :
  all_chars p (a +:+ b) = all_chars p a && all_chars p b.
Proof. induction a as [|c a IH]; simpl; [reflexivity | now rewrite IH, andb_assoc]. Qed.

Lemma all_chars_replicate (p : ascii -> bool) (n : nat) (c : ascii) :
  p c = true -> all_chars p (Py.replicate n c) = true.
Proof. intros Hc. induction n as [|n IH]; simpl; [reflexivity | now rewrite Hc, IH]. Qed.

Lemma has_char_app (c : ascii) (a b : string) :
  has_char c (a +:+ b) = has_char c a || has_char c b.
Proof. induction a as [|k a IH]; simpl; [reflexivity | now rewrite IH, orb_assoc]. Qed.

(** X4.  Whatever the elapsed time, negative included, the bar is
    [bar_max_width] characters long and made of spaces and [+] only. *)
Theorem bar_fixed_width (self : TapeyTape) (seconds : Q) :
  (0 <= bar_max_width self)%Z ->
  Z.of_nat (String.length (bar self seconds)) = bar_max_width self
  /\ all_chars (fun c => Ascii.eqb c " " || Ascii.eqb c "+") (bar self seconds)
     = true.
Proof.
  intros Hm. unfold bar, Py.rjust, Py.mul_char.
  assert (Hw : (bar_width self seconds <= bar_max_width self)%Z)
    by (unfold bar_width; lia).
  split.
  - rewrite str_app_length, !str_replicate_length. lia.
  - rewrite all_chars_app, !all_chars_replicate; reflexivity.
Qed.

Lemma show_whitespace_clean (s : string) :
  has_char (ascii_of_nat 10) (show_whitespace s) = false
  /\ has_char (ascii_of_nat 13) (show_whitespace s) = false
  /\ has_char (ascii_of_nat 9) (show_whitespace s) = false.
Proof.
  induction s as [|c s (IH1 & IH2 & IH3)]; [auto|].
  simpl show_whitespace.
  destruct (Ascii.eqb c (ascii_of_nat 10)) eqn:E1;
    [simpl; rewrite IH1, IH2, IH3; auto|].
  destruct (Ascii.eqb c (ascii_of_nat 13)) eqn:E2;
    [simpl; rewrite IH1, IH2, IH3; auto|].
  destruct (Ascii.eqb c (ascii_of_nat 9)) eqn:E3;
    [simpl; rewrite IH1, IH2, IH3; auto|].
  simpl. rewrite E1, E2, E3, IH1, IH2, IH3. auto.
Qed.

(** X5.  The output text of an event never holds a line feed, a carriage
    return or a tab, whatever the definition or the translation holds. *)
Theorem output_text_one_line (self : TapeyTape) (stroke : Stroke)
    (translations : list Translation) (now : Z) :
  exists t : string,
    event_items self stroke translations now !! "t"%char = Some t
    /\ has_char (ascii_of_nat 10) t = false
    /\ has_char (ascii_of_nat 13) t = false
    /\ has_char (ascii_of_nat 9) t = false.
Proof.
  unfold event_items.
  destruct (examine self stroke translations) as [[output suggestions] fs] eqn:Ex.
  exists output. split; [apply make_items_lookup|].
  unfold examine in Ex.
  destruct (last translations) as [newest|]; [|injection Ex as <- _ _; auto].
  destruct (is_correction stroke); [injection Ex as <- _ _; auto|].
  injection Ex as <- _ _. unfold output_of.
  rewrite !has_char_app.
  destruct (show_whitespace_clean
              (if String.eqb (output_style self) "translation"
               then retroformat [newest]
               else match english newest with
                    | Some definition => definition
                    | None => "/"
                    end)) as (-> & -> & ->).
  destruct (1 <? length (strokes newest))%nat; auto.
Qed.

End FieldFacts.

(** ** The chord layout *)

Section StenoFacts.
Context `{Host}.

#[local] Set Warnings "-clear-no-such-hyp".

Lemma pressed_keys_fold (self : TapeyTape) (keys : list string) :
  forall (acc : gset string) (k : string),
    k ∈ foldl (fun (keys : gset string) key =>
                 match numbers self !! key with
                 | Some letter => {[ NUMBER_KEY ]} ∪ ({[ letter ]} ∪ keys)
                 | None => {[ key ]} ∪ keys
                 end) acc keys
    <-> k ∈ acc
        \/ exists key, key ∈ keys
             /\ match numbers self !! key with
                | Some letter => k = letter \/ k = NUMBER_KEY
                | None => k = key
                end.
Proof.
  induction keys as [|key keys IH]; intros acc k; simpl.
  - split; [auto | intros [?|(key & Hk & _)]; [assumption | inversion Hk]].
  - rewrite IH. split.
    + intros [Hacc|(key' & Hin & Hm)].
      * destruct (numbers self !! key) as [letter|] eqn:En.
        -- apply elem_of_union in Hacc as [Hn|Hacc].
           { right. exists key. rewrite En. split; [left|set_solver]. }
           apply elem_of_union in Hacc as [Hl|Hacc]; [|auto].
           right. exists key. rewrite En. split; [left|set_solver].
        -- apply elem_of_union in Hacc as [Hk|Hacc]; [|auto].
           right. exists key. rewrite En. split; [left|set_solver].
      * right. exists key'. split; [now right | exact Hm].
    + intros [Hacc|(key' & Hin & Hm)].
      * left. destruct (numbers self !! key); set_solver.
      * apply elem_of_cons in Hin as [->|Hin].
        -- left. destruct (numbers self !! key); set_solver.
        -- right. exists key'. auto.
Qed.

Lemma pressed_keys_elem (self : TapeyTape) (stroke : Stroke) (k : string) :
  k ∈ pressed_keys self stroke
  <-> exists key, key ∈ steno_keys stroke
        /\ match numbers self !! key with
           | Some letter => k = letter \/ k = NUMBER_KEY
           | None => k = key
           end.
Proof.
  unfold pressed_keys. rewrite pressed_keys_fold. set_solver.
Qed.

(** X6.  A pressed key that is a number alias shows as its letter and the
    number key; the alias itself is shown only if it is the number key or
    the letter of a pressed alias.  A pressed key that is no alias shows as
    itself. *)
Theorem steno_number_alias (self : TapeyTape) (stroke : Stroke) (key : string) :
  key ∈ steno_keys stroke ->
  match numbers self !! key with
  | Some letter =>
      letter ∈ pressed_keys self stroke
      /\ NUMBER_KEY ∈ pressed_keys self stroke
      /\ (key ∈ pressed_keys self stroke ->
          key = NUMBER_KEY
          \/ exists alias, alias ∈ steno_keys stroke
               /\ numbers self !! alias = Some key)
  | None => key ∈ pressed_keys self stroke
  end.
Proof.
  intros Hin. destruct (numbers self !! key) as [letter|] eqn:En.
  - split; [|split].
    + apply pressed_keys_elem. exists key. rewrite En. auto.
    + apply pressed_keys_elem. exists key. rewrite En. auto.
    + intros (alias & Ha & Hm)%pressed_keys_elem.
      destruct (numbers self !! alias) as [l|] eqn:Ea.
      * destruct Hm as [Hm | Hm]; subst key; [right; exists alias | left]; auto.
      * subst alias. congruence.
  - apply pressed_keys_elem. exists key. now rewrite En.
Qed.

(** X7.  The layout depends on the set of pressed keys only: neither their
    order nor their repetition changes it. *)
Theorem steno_set (self : TapeyTape) (stroke stroke' : Stroke) :
  (forall key, key ∈ steno_keys stroke <-> key ∈ steno_keys stroke') ->
  steno self stroke = steno self stroke'.
Proof.
  intros Hsame. unfold steno.
  assert (Hp : pressed_keys self stroke = pressed_keys self stroke').
  { apply set_eq. intros k. rewrite !pressed_keys_elem.
    split; intros (key & Hk & Hm); exists key; (split; [apply Hsame, Hk | exact Hm]). }
  now rewrite Hp.
Qed.

Lemma concat_cons (p : string) (parts : list string) :
  Py.concat (p :: parts) = p +:+ Py.concat parts.
Proof.
  unfold Py.concat. destruct parts as [|q parts]; [|reflexivity].
  simpl. now rewrite str_app_empty_r.
Qed.

Lemma concat_length (parts : list string) :
  String.length (Py.concat parts)
  = sum_list (map String.length parts).
Proof.
  induction parts as [|p parts IH]; [reflexivity|].
  rewrite concat_cons, str_app_length, IH. reflexivity.
Qed.

(** X8.  When every slot of the system has a one-character label once its
    dashes are stripped, the layout has one character per slot, whatever
    is pressed; and with no key pressed it is all spaces. *)
Theorem steno_width (self : TapeyTape) (stroke : Stroke) :
  Forall (fun key => String.length (Py.strip_char "-" key) = 1%nat) KEYS ->
  String.length (steno self stroke) = length KEYS
  /\ (steno_keys stroke = [] ->
      steno self stroke = Py.replicate (length KEYS) " ").
Proof.
  intros Hk. unfold steno. split.
  - rewrite concat_length. induction Hk as [|key keys Hone _ IH]; [reflexivity|].
    simpl. rewrite IH. destruct (bool_decide _); [rewrite Hone|]; reflexivity.
  - intros He. unfold pressed_keys. rewrite He. simpl. clear Hk.
    induction KEYS as [|key keys IH]; [reflexivity|].
    simpl map. rewrite concat_cons, IH.
    rewrite bool_decide_eq_false_2 by set_solver. reflexivity.
Qed.

(** The inverse of the number table. *)
Lemma invert_fold_absent (l : list (string * string)) :
  forall (m : gmap string string) (number : string),
    number ∉ l.*2 ->
    foldl (fun m '(letter, number) => <[ number := letter ]> m) m l !! number
    = m !! number.
Proof.
  induction l as [|[l0 n0] l IH]; intros m number Hn; [reflexivity|].
  simpl. rewrite IH by set_solver. apply lookup_insert_ne. set_solver.
Qed.

Lemma invert_fold_lookup (l : list (string * string)) :
  forall (m : gmap string string) (number letter : string),
    foldl (fun m '(letter, number) => <[ number := letter ]> m) m l !! number
    = Some letter ->
    m !! number = Some letter \/ (letter, number) ∈ l.
Proof.
  induction l as [|[l0 n0] l IH]; intros m number letter; simpl; [auto|].
  intros [Hm|Hin]%IH; [|right; now right].
  apply lookup_insert_Some in Hm as [[-> ->]|[_ Hm]]; [right; left | auto].
Qed.

(** X9.  The table [numbers] built by [start] is the inverse of
    [NUMBERS]: it maps a number key to a letter only if [NUMBERS] maps that
    letter to it, and, when no two letters share a number key, exactly
    then. *)
Theorem numbers_inverse (letter number : string) :
  (invert_numbers !! number = Some letter -> (letter, number) ∈ NUMBERS)
  /\ (NoDup NUMBERS.*2 -> (letter, number) ∈ NUMBERS ->
      invert_numbers !! number = Some letter).
Proof.
  unfold invert_numbers. split.
  - intros [Hm|Hin]%invert_fold_lookup; [|exact Hin].
    rewrite lookup_empty in Hm. discriminate.
  - generalize (∅ : gmap string string).
    induction NUMBERS as [|[l0 n0] l IH]; intros m Hnd Hin; [inversion Hin|].
    simpl in Hnd. apply NoDup_cons in Hnd as [Hn0 Hnd]. simpl.
    apply elem_of_cons in Hin as [[= -> ->]|Hin].
    + rewrite invert_fold_absent by exact Hn0. apply lookup_insert_eq.
    + apply IH; assumption.
Qed.

End StenoFacts.

(** ** Tiers *)

Section TierFacts.
Context `{Host}.

(** Every window of the walk is longer than the window it started from,
    and the windows grow. *)
Lemma walk_grows (l : list Translation) :
  forall window run : list Translation,
    Forall (fun w => (length window + length run `max` 1 <= length w)%nat)
      (Spec.walk l window run)
    /\ StronglySorted (fun w1 w2 : list Translation => (length w1 < length w2)%nat)
         (Spec.walk l window run).
Proof.
  induction l as [|entry l IH]; intros window run; simpl.
  - destruct run as [|x run]; [split; constructor|].
    split; [|repeat constructor].
    apply Forall_singleton. rewrite length_app. simpl. lia.
  - destruct (is_fingerspelling entry).
    + destruct (IH window (entry :: run)) as [Hlen Hs]. split; [|exact Hs].
      eapply Forall_impl; [exact Hlen|]. simpl. intros w. lia.
    + destruct (IH (entry :: run ++ window) []) as [Hlen Hs].
      assert (Hrec : Forall (fun w => (length run + length window + 2 <= length w)%nat)
                       (Spec.walk l (entry :: run ++ window) [])).
      { eapply Forall_impl; [exact Hlen|]. simpl. intros w.
        rewrite length_app. lia. }
      split.
      * rewrite !Forall_app. split; [|split].
        -- destruct run; [constructor|].
           apply Forall_singleton. rewrite length_app. simpl. lia.
        -- destruct (is_whitespace entry); [constructor|].
           apply Forall_singleton. simpl. rewrite length_app. lia.
        -- eapply Forall_impl; [exact Hrec|]. simpl. intros w. lia.
      * apply StronglySorted_app_2.
        -- intros w1 w2 Hw1 Hw2.
           destruct run as [|x run]; [inversion Hw1|].
           apply list_elem_of_singleton in Hw1. subst w1.
           apply elem_of_app in Hw2 as [Hw2|Hw2].
           ++ destruct (is_whitespace entry); [inversion Hw2|].
              apply list_elem_of_singleton in Hw2. subst w2. simpl. lia.
           ++ rewrite Forall_forall in Hrec. specialize (Hrec w2 Hw2).
              rewrite length_app. simpl in *. lia.
        -- destruct run; repeat constructor.
        -- apply StronglySorted_app_2; [| |exact Hs].
           ++ intros w1 w2 Hw1 Hw2.
              destruct (is_whitespace entry); [inversion Hw1|].
              apply list_elem_of_singleton in Hw1. subst w1.
              rewrite Forall_forall in Hrec. specialize (Hrec w2 Hw2).
              simpl. rewrite length_app. lia.
           ++ destruct (is_whitespace entry); repeat constructor.
Qed.

Lemma growing_bound (ws : list (list Translation)) :
  forall lo hi : nat,
    StronglySorted (fun w1 w2 : list Translation => (length w1 < length w2)%nat) ws ->
    Forall (fun w => (lo < length w <= hi)%nat) ws ->
    (length ws <= hi - lo)%nat.
Proof.
  induction ws as [|w ws IH]; intros lo hi Hs Hb; simpl; [lia|].
  apply StronglySorted_inv in Hs as [Hs Hw].
  apply Forall_cons in Hb as [Hwb Hb].
  assert (Hle : (length ws <= hi - length w)%nat).
  { apply IH; [exact Hs|]. rewrite Forall_forall in *.
    intros w' Hw'. specialize (Hw w' Hw'). specialize (Hb w' Hw'). lia. }
  lia.
Qed.

(** X19.  A window of at most one stroke gets no outline of any stroke:
    whatever the host suggests, only empty outlines could pass. *)
Theorem single_stroke_no_suggestion (window : list Translation) :
  (stroke_count window <= 1)%nat ->
  Forall (fun outline : Outline => outline = []) (get_suggestions window).
Proof.
  intros Hc. apply Forall_forall. intros outline.
  unfold get_suggestions.
  intros (suggestion & Ho & _)%list_elem_of_bind.
  apply list_elem_of_bind in Ho as (o & Ho & _).
  destruct (Nat.ltb_spec (length o) (stroke_count window)) as [Hlt|Hge].
  - apply list_elem_of_singleton in Ho. subst o.
    destruct outline; [reflexivity | simpl in Hlt; lia].
  - inversion Ho.
Qed.

(** X10.  The tiers of a scan are the lookups of windows that are
    non-empty suffixes of the snapshot, each strictly longer than the one
    before; so a stroke costs at most as many lookups as the snapshot has
    entries. *)
Theorem scan_windows_grow (snapshot : list Translation) :
  exists ws : list (list Translation),
    scan snapshot = map get_suggestions ws
    /\ Forall (fun w => w `suffix_of` snapshot /\ w <> []) ws
    /\ StronglySorted (fun w1 w2 : list Translation => (length w1 < length w2)%nat) ws
    /\ (length (scan snapshot) <= length snapshot)%nat.
Proof.
  destruct (walk_grows (reverse snapshot) [] []) as [Hlen Hs].
  fold (Spec.windows snapshot) in Hlen, Hs.
  assert (Hb : Forall (fun w => (0 < length w <= length snapshot)%nat)
                 (Spec.windows snapshot)).
  { apply Forall_forall. intros w Hw.
    rewrite Forall_forall in Hlen. specialize (Hlen w Hw). simpl in Hlen.
    pose proof (suffix_length _ _ (windows_suffix _ _ Hw)). lia. }
  exists (Spec.windows snapshot). split; [apply scan_tiers|].
  split; [|split; [exact Hs|]].
  - apply Forall_forall. intros w Hw. split; [now apply windows_suffix|].
    rewrite Forall_forall in Hb. specialize (Hb w Hw).
    intros ->. simpl in Hb. lia.
  - rewrite scan_tiers. unfold Spec.tiers. rewrite length_map.
    pose proof (growing_bound _ 0 (length snapshot) Hs Hb). lia.
Qed.

Lemma join_empty (parts : list string) :
  Forall (fun p => p <> "") parts -> Py.join " " parts = "" -> parts = [].
Proof.
  destruct parts as [|p [|q parts]]; [reflexivity| |].
  - intros Hp%Forall_cons_1 E. simpl in E. now destruct Hp.
  - intros Hp%Forall_cons_1 E. destruct Hp as [Hp _].
    change (Py.join " " (p :: q :: parts))
      with (p +:+ " " +:+ Py.join " " (q :: parts)) in E.
    destruct p; [congruence | discriminate].
Qed.

Lemma rendered_tiers (tiers : list (list Outline)) :
  forall start : Z,
    (1 <= start)%Z ->
    let parts :=
      omap (fun '(i, outlines) =>
              match outlines with
              | [] => None
              | _ => Some (render_tier i outlines)
              end)
           (enumerate start tiers) in
    Forall (fun p => p <> "") parts
    /\ (parts = [] <-> Forall (fun tier => tier = []) tiers).
Proof.
  induction tiers as [|tier tiers IH]; intros start Hs; simpl.
  - split; [constructor|]. split; auto.
  - destruct (IH (start + 1)%Z ltac:(lia)) as [Hne Hiff].
    destruct tier as [|o tier]; simpl.
    + split; [exact Hne|]. rewrite Hiff. split.
      * intros Hall. constructor; auto.
      * intros Hall. apply Forall_cons in Hall as [_ Hall]. exact Hall.
    + split.
      * constructor; [|exact Hne]. unfold render_tier, Py.mul_char.
        destruct (Z.to_nat start) as [|n] eqn:En; [lia | discriminate].
      * split; [discriminate|].
        intros Hall. apply Forall_cons in Hall as [Hall _]. discriminate.
Qed.

(** X11.  The hint is empty exactly when no tier has an outline. *)
Theorem hint_empty_iff (tiers : list (list Outline)) :
  render tiers = "" <-> Forall (fun tier => tier = []) tiers.
Proof.
  unfold render. destruct (rendered_tiers tiers 1 ltac:(lia)) as [Hne Hiff].
  cbv zeta in Hne, Hiff. split.
  - intros E. apply Hiff. apply join_empty; assumption.
  - intros Hall. apply Hiff in Hall. now rewrite Hall.
Qed.

End TierFacts.

(** ** The life of the extension *)

Section LifeFacts.
Context `{Host} `{PyFloat}.

Lemma stop_ok (self : TapeyTape) :
  consistent self = true -> exists self', stop self = Ok self'.
Proof.
  unfold consistent, stop. destruct (was_fingerspelling self); simpl.
  - destruct (items self); [eauto | discriminate].
  - eauto.
Qed.

(** X12.  After a successful [start] that leaves a finite time unit, no
    sequence of strokes makes the handler raise: every event is handled,
    the settings stay those of [start], and [stop] succeeds afterwards.
    (With a nan time unit, which [start] accepts, the object is none of
    these.) *)
Theorem handler_never_raises (f : ConfigFile) (c : Config)
    (self : TapeyTape) (events : list Event) :
  start f = Ok c ->
  tape_of c = Some self ->
  exists self' self'',
    run self events = Ok self'
    /\ settings self'
       = (bar_time_unit self, cfg_bar_max_width c, cfg_output_style c,
          cfg_left_format c, cfg_right_format c, cfg_numbers c)
    /\ (1 # 100 <= bar_time_unit self')%Q
    /\ stop self' = Ok self''.
Proof.
  intros Hs Ht.
  pose proof (start_consistent c self Ht) as Hc.
  destruct (tape_of_fresh c self Ht) as (Hu & Hset0 & _).
  destruct (start_ok f c Hs) as (Hunit & _). rewrite Hu in Hunit.
  destruct (run_consistent events self Hc) as (self' & Hr & Hc' & Hset).
  destruct (stop_ok self' Hc') as [self'' Hstop].
  exists self', self''. split; [exact Hr|]. split; [congruence|].
  split; [|exact Hstop].
  unfold settings in Hset. injection Hset as -> _ _ _ _ _. exact Hunit.
Qed.

(** X13.  The log only grows: what was written before a run of events is
    still the beginning of the log after it. *)
Theorem log_append_only (self : TapeyTape) (events : list Event) :
  consistent self = true ->
  exists self',
    run self events = Ok self' /\ file self `prefix_of` file self'.
Proof.
  revert self. induction events as [|e events IH]; intros self Hc.
  - exists self. split; reflexivity.
  - destruct (on_stroked_spec self (ev_stroke e) (ev_translations e) (ev_now e) Hc)
      as (self1 & Hon & Hf & _).
    destruct (IH self1 (on_stroked_consistent _ _ _ _ _ Hon)) as (self' & Hr & Hp).
    exists self'. simpl. unfold handle. rewrite Hon. simpl.
    split; [exact Hr|].
    transitivity (file self1); [|exact Hp].
    rewrite Hf. now apply prefix_app_r.
Qed.

Lemma examine_flag (self : TapeyTape) (e : Event) :
  (examine self (ev_stroke e) (ev_translations e)).2 = fingerspelling_event e.
Proof.
  unfold examine, fingerspelling_event.
  destruct (last (ev_translations e)) as [newest|].
  - destruct (is_correction (ev_stroke e)); reflexivity.
  - now rewrite andb_false_r.
Qed.

(** X14.  Whether a right segment is withheld after an event depends on
    that event alone: it is withheld exactly when the stroke is no
    correction and the newest entry of its snapshot is fingerspelling.
    The time of the event becomes the time of the last stroke. *)
Theorem pending_after_event (self : TapeyTape) (e : Event) :
  consistent self = true ->
  exists self',
    handle self e = Ok self'
    /\ was_fingerspelling self' = fingerspelling_event e
    /\ last_stroke_time self' = Some (ev_now e)
    /\ settings self' = settings self.
Proof.
  intros Hc.
  destruct (on_stroked_spec self (ev_stroke e) (ev_translations e) (ev_now e) Hc)
    as (self' & Hon & _ & _ & Hw & Hset & Ht).
  exists self'. rewrite examine_flag in Hw. auto.
Qed.

(** X15.  On the first event after [start], if the float division gives 0
    for 0 seconds, the bar is blank: [bar_max_width] spaces. *)
Theorem first_event_bar (self : TapeyTape) (stroke : Stroke)
    (translations : list Translation) (now : Z) :
  last_stroke_time self = None ->
  (fdiv 0 (bar_time_unit self) == 0)%Q ->
  (0 <= bar_max_width self)%Z ->
  event_items self stroke translations now !! "b"%char
  = Some (Py.replicate (Z.to_nat (bar_max_width self)) " ").
Proof.
  intros Ht Hz Hm. unfold event_items.
  destruct (examine self stroke translations) as [[output suggestions] fs].
  destruct (make_items_lookup (bar self (elapsed self now)) (steno self stroke)
              output suggestions) as [-> _].
  f_equal. unfold elapsed. rewrite Ht.
  assert (Hw : bar_width self 0 = 0%Z).
  { unfold bar_width, int_of_float.
    destruct (fdiv 0 (bar_time_unit self)) as [n d].
    unfold Qeq in Hz. simpl in Hz. assert (n = 0%Z) as -> by lia.
    simpl. rewrite Z.quot_0_l by lia. lia. }
  unfold bar, Py.rjust, Py.mul_char. rewrite Hw. simpl.
  rewrite Z.sub_0_r. apply str_app_empty_r.
Qed.

(** X16.  An entry without any formatting action counts as whitespace-only
    and not as fingerspelling: an event whose newest entry is such has an
    empty hint and defers nothing, whatever the rest of the snapshot. *)
Theorem empty_formatting_event (self : TapeyTape) (stroke : Stroke)
    (translations : list Translation) (newest : Translation) (now : Z) :
  consistent self = true ->
  last translations = Some newest ->
  formatting newest = [] ->
  exists self' its,
    on_stroked self stroke translations now = Ok self'
    /\ items self' = Some its
    /\ its !! "h"%char = Some ""
    /\ was_fingerspelling self' = false.
Proof.
  intros Hc Hl Hf.
  destruct (on_stroked_spec self stroke translations now Hc)
    as (self' & Hon & _ & Hi & Hw & _).
  exists self'. eexists. split; [exact Hon|]. split; [exact Hi|].
  rewrite Hw. unfold event_items, examine. rewrite Hl.
  destruct (is_correction stroke).
  - split; [apply make_items_lookup | reflexivity].
  - unfold hint, is_whitespace, is_fingerspelling. rewrite Hf. simpl.
    split; [apply make_items_lookup | reflexivity].
Qed.

(** X17.  Whenever [start] succeeds, the time unit is nan, or the
    positive infinity, or a finite number that is at least 0.01; the width
    of the bar is between 0 and 100, the output style is one of the two
    known ones, the number table is the inverse of [NUMBERS], and the two
    segments put together are a template.  A nan time unit does occur. *)
Theorem start_clamps (f : ConfigFile) (c : Config) :
  start f = Ok c ->
  match cfg_bar_time_unit c with
  | Finite unit => (1 # 100 <= unit)%Q
  | Inf negative => negative = false
  | NaN => True
  end
  /\ (0 <= cfg_bar_max_width c <= 100)%Z
  /\ (cfg_output_style c = "translation" \/ cfg_output_style c = "definition")
  /\ cfg_numbers c = invert_numbers
  /\ (exists output_format : string,
        (cfg_left_format c, cfg_right_format c) = split_format output_format)
  /\ exists c',
       start (Parsed (JObj [("bar_time_unit", JFloat NaN)])) = Ok c'
       /\ cfg_bar_time_unit c' = NaN.
Proof.
  intros Hs.
  destruct (start_ok f c Hs) as (Hu & Hw & Hst & Hn).
  split; [exact Hu|]. split; [exact Hw|]. split; [exact Hst|].
  split; [exact Hn|]. split; [exact (start_split f c Hs)|].
  eexists. split; reflexivity.
Qed.

Lemma float_field (v : json) :
  match py_float v with
  | Ok _ | Raise ValueError => float_field_ok v = true
  | Raise KeyError => False
  | Raise _ => float_field_ok v = false
  end.
Proof.
  destruct v as [| b | z | x | s | l | fields]; simpl; try reflexivity.
  - destruct (Z.abs (nearest_double z) <? 2 ^ 1024)%Z; reflexivity.
  - destruct (float_of_str s); reflexivity.
Qed.

Lemma int_field (v : json) :
  match py_int v with
  | Ok _ | Raise ValueError => int_field_ok v = true
  | Raise KeyError => False
  | Raise _ => int_field_ok v = false
  end.
Proof.
  destruct v as [| b | z | [q | n | ] | s | l | fields]; simpl; try reflexivity.
  destruct (int_of_str s); reflexivity.
Qed.

(** The [try] of a field, for a conversion that raises no [KeyError]: it
    ends well exactly when the field is absent or accepted, and gives the
    default when the field is absent or raises [ValueError]. *)
Lemma field_try {A B} (conv : json -> result A) (post : A -> B) (d : B)
    (accepts : json -> bool) (fields : list (string * json)) (key : string) :
  (forall v, match conv v with
             | Ok _ | Raise ValueError => accepts v = true
             | Raise KeyError => False
             | Raise _ => accepts v = false
             end) ->
  let r := except_Key_Value
             (let* v := subscript (JObj fields) key in
              let* x := conv v in
              Ok (post x)) d in
  ((exists y, r = Ok y) <->
   (forall v, dict_lookup fields key = Some v -> accepts v = true))
  /\ (forall y, r = Ok y ->
      (dict_lookup fields key = None -> y = d)
      /\ (forall v, dict_lookup fields key = Some v ->
                    conv v = Raise ValueError -> y = d)).
Proof.
  intros Hconv r. subst r. unfold subscript.
  destruct (dict_lookup fields key) as [v|] eqn:Ev; simpl.
  - specialize (Hconv v). destruct (conv v) as [x|e] eqn:Ex; simpl.
    + split.
      * split; [intros _ v' [= <-]; exact Hconv | eauto].
      * intros y [= <-]. split; [discriminate|]. intros v' [= <-]. congruence.
    + destruct e; simpl; try contradiction; split;
        try (split; [intros [y Hy]; discriminate
                    | intros Hall; specialize (Hall v eq_refl); congruence]);
        try (intros y Hy; discriminate).
      * split; [intros _ v' [= <-]; exact Hconv | eauto].
      * intros y [= <-]. auto.
  - split.
    + split; [intros _ v'; discriminate | eauto].
    + intros y [= <-]. auto.
Qed.

(** X18.  On a configuration that is an object, [start] succeeds exactly
    when [bar_time_unit], if present, is a boolean, a float, a string or
    an integer that does not overflow a float, and [bar_max_width], if
    present, is a boolean, an integer, a string, or a float that is not
    infinite.  A field that is absent, or on which the conversion raises
    [ValueError] (a string that is no number, a nan width), gets its
    default, 0.2 or 5. *)
Theorem start_succeeds_iff (fields : list (string * json)) :
  ((exists c, start (Parsed (JObj fields)) = Ok c) <->
   (forall v, dict_lookup fields "bar_time_unit" = Some v ->
              float_field_ok v = true)
   /\ (forall v, dict_lookup fields "bar_max_width" = Some v ->
                 int_field_ok v = true))
  /\ forall c,
       start (Parsed (JObj fields)) = Ok c ->
       (dict_lookup fields "bar_time_unit" = None ->
        cfg_bar_time_unit c = Finite (2 # 10))
       /\ (forall v, dict_lookup fields "bar_time_unit" = Some v ->
                     py_float v = Raise ValueError ->
                     cfg_bar_time_unit c = Finite (2 # 10))
       /\ (dict_lookup fields "bar_max_width" = None ->
           cfg_bar_max_width c = 5%Z)
       /\ (forall v, dict_lookup fields "bar_max_width" = Some v ->
                     py_int v = Raise ValueError ->
                     cfg_bar_max_width c = 5%Z).
Proof.
  destruct (field_try py_float (fun x => py_max x (1 # 100)) (Finite (2 # 10))
              float_field_ok fields "bar_time_unit" float_field)
    as [Hu_iff Hu_def].
  destruct (field_try py_int (fun n => Z.min (Z.max n 0) 100) 5%Z
              int_field_ok fields "bar_max_width" int_field)
    as [Hw_iff Hw_def].
  cbv zeta in *. unfold start. cbn [load_config bind].
  split.
  - split.
    + intros [c Hs].
      apply bind_ok in Hs as (unit & Hu & Hs).
      apply bind_ok in Hs as (width & Hw & _).
      split; [apply Hu_iff | apply Hw_iff]; eauto.
    + intros [Hu Hw].
      apply Hu_iff in Hu as [unit ->]. apply Hw_iff in Hw as [width ->].
      cbn [bind dict_get]. destruct (split_format _) as [l r]. eauto.
  - intros c Hs.
    apply bind_ok in Hs as (unit & Hu & Hs).
    apply bind_ok in Hs as (width & Hw & Hs).
    cbn [bind dict_get] in Hs. destruct (split_format _) as [l r].
    injection Hs as <-. simpl.
    destruct (Hu_def unit Hu) as [Hu1 Hu2].
    destruct (Hw_def width Hw) as [Hw1 Hw2].
    auto.
Qed.

End LifeFacts.

(** ** The theorems at work on the small host *)

#[local] Existing Instance Toy.host.
#[local] Existing Instance Toy.floats.

(** C1 as the specification words it fails: a word follows three
    fingerspelled letters, so the newest entry is not fingerspelling, the
    stroke is no correction and nothing was replaced; the hint of the third
    letter is written as it was, not cleared. *)
Lemma hint_kept_when_newest_not_fingerspelling :
  pending_hint (run Toy.tape [Toy.first; Toy.second; Toy.third])
  = Some ">TPAO TPO/O*"
  /\ last (ev_translations Toy.word_after) = Some Toy.cat
  /\ is_fingerspelling Toy.cat = false
  /\ written (run Toy.tape [Toy.first; Toy.second; Toy.third; Toy.word_after])
     = written (run Toy.tape [Toy.first; Toy.second; Toy.third])
       ++ ["  >TPAO TPO/O*"; nl; "+++++ |    A  T | cat"; ""; nl].
Proof.
  split; [vm_compute; reflexivity|].
  split; [reflexivity|].
  split; [reflexivity|].
  vm_compute; reflexivity.
Qed.

(** C2 as the specification words it fails: the right segment of the
    second fingerspelling event is written when the third one arrives,
    before any merge event, and its hint [>TPO] is cleared. *)
Lemma second_segment_cleared_before_merge :
  Forall (fun e => fingerspelling_event e = true)
    [Toy.first; Toy.second; Toy.third]
  /\ merge_event Toy.merge = true
  /\ pending_hint (run Toy.tape [Toy.first; Toy.second]) = Some ">TPO"
  /\ written (run Toy.tape [Toy.first; Toy.second; Toy.third])
     = written (run Toy.tape [Toy.first; Toy.second])
       ++ [""; nl; "  +++ |     O*  | {&o}"].
Proof.
  split; [repeat constructor|].
  split; [reflexivity|].
  split; vm_compute; reflexivity.
Qed.

(** The resolution of the third letter's segment when the word arrives. *)
Lemma deferred_hint_cleared_iff_witness :
  was_fingerspelling Toy.pending = true
  /\ items Toy.pending = Some Toy.pending_items
  /\ exists self' later,
       on_stroked Toy.pending (ev_stroke Toy.word_after)
         (ev_translations Toy.word_after) (ev_now Toy.word_after) = Ok self'
       /\ file self'
          = file Toy.pending
            ++ [Py.rstrip
                  (expand (right_format Toy.pending)
                     (if suppress_suggestions (ev_stroke Toy.word_after)
                           (ev_translations Toy.word_after)
                      then <[ "h"%char := "" ]> Toy.pending_items
                      else Toy.pending_items));
                nl]
            ++ later.
Proof.
  split; [reflexivity|]. split; [reflexivity|].
  apply (deferred_hint_cleared_iff Toy.pending (ev_stroke Toy.word_after)
           (ev_translations Toy.word_after) (ev_now Toy.word_after)
           Toy.pending_items); reflexivity.
Defined.

(** Scenario B at its third letter and its merge event. *)
Lemma fingerspelling_run_resolution_witness :
  consistent Toy.tape = true
  /\ merge_event Toy.merge = true
  /\ exists (before after : TapeyTape) (its : Items) (earlier : list string),
       run Toy.tape (take 2 [Toy.first; Toy.second; Toy.third]) = Ok before
       /\ handle before Toy.third = Ok after
       /\ was_fingerspelling after = true
       /\ items after = Some its
       /\ file after = earlier ++ [expand (left_format Toy.tape) its]
       /\ exists (final : TapeyTape) (its_m : Items),
            handle after Toy.merge = Ok final
            /\ was_fingerspelling final = false
            /\ items final = Some its_m
            /\ its_m !! "t"%char = Some (output_of Toy.tape Toy.foo)
            /\ file final
               = file after
                 ++ [Py.rstrip (expand (right_format Toy.tape) its); nl;
                     expand (left_format Toy.tape) its_m;
                     Py.rstrip (expand (right_format Toy.tape) its_m); nl].
Proof.
  split; [reflexivity|]. split; [reflexivity|].
  apply (fingerspelling_run_resolution Toy.tape
           [Toy.first; Toy.second; Toy.third] Toy.merge Toy.foo
           eq_refl
           ltac:(repeat constructor) eq_refl eq_refl 2%nat Toy.third eq_refl).
Defined.

(** Two letters: one whole line and one pending left segment. *)
Lemma one_pending_resolved_once_witness :
  was_fingerspelling Toy.tape = false
  /\ exists self' (lines : list (string * string)),
       run Toy.tape [Toy.first; Toy.second] = Ok self'
       /\ if was_fingerspelling self' then
            exists its self'',
              items self' = Some its
              /\ S (length lines) = 2%nat
              /\ file self'
                 = file Toy.tape ++ log_lines lines
                   ++ [expand (left_format self') its]
              /\ stop self' = Ok self''
              /\ file self''
                 = file self'
                   ++ [Py.rstrip (expand (right_format self') its); nl]
          else
            length lines = 2%nat
            /\ file self' = file Toy.tape ++ log_lines lines
            /\ stop self' = Ok self'.
Proof.
  split; [reflexivity|].
  apply (one_pending_resolved_once Toy.tape [Toy.first; Toy.second] eq_refl).
Defined.

(** A word followed by three letters. *)
Lemma hint_by_backward_scan_witness :
  last [Toy.cat; Toy.f; Toy.o; Toy.o] = Some Toy.o
  /\ is_whitespace Toy.o = false
  /\ scan [Toy.cat; Toy.f; Toy.o; Toy.o]
     = Spec.tiers [Toy.cat; Toy.f; Toy.o; Toy.o]
  /\ hint [Toy.cat; Toy.f; Toy.o; Toy.o] Toy.o
     = Spec.hint_text (Spec.tiers [Toy.cat; Toy.f; Toy.o; Toy.o]).
Proof.
  split; [reflexivity|]. split; [reflexivity|].
  destruct (hint_by_backward_scan [Toy.cat; Toy.f; Toy.o; Toy.o] Toy.o
              eq_refl eq_refl) as (Hs & Hh & _).
  split; assumption.
Defined.

(** Half a second, then seven tenths, with a unit of a fifth. *)
Lemma bar_width_clamped_monotone_witness :
  (0 < bar_time_unit Toy.tape)%Q
  /\ (0 <= bar_max_width Toy.tape)%Z
  /\ (0 <= 1 # 2)%Q
  /\ (1 # 2 <= 7 # 10)%Q
  /\ bar_width Toy.tape (1 # 2)
     = Z.min (Qfloor (fdiv (1 # 2) (bar_time_unit Toy.tape)))
         (bar_max_width Toy.tape)
  /\ (bar_width Toy.tape (1 # 2) <= bar_width Toy.tape (7 # 10))%Z.
Proof.
  assert (H1 : (0 < bar_time_unit Toy.tape)%Q) by reflexivity.
  assert (H2 : (0 <= bar_max_width Toy.tape)%Z) by (simpl; lia).
  assert (H3 : (0 <= 1 # 2)%Q) by (unfold Qle; simpl; lia).
  assert (H4 : (1 # 2 <= 7 # 10)%Q) by (unfold Qle; simpl; lia).
  destruct (bar_width_clamped_monotone Toy.tape (1 # 2) (7 # 10) H1 H2 H3 H4)
    as (Hw & _ & _ & _ & Hm).
  repeat split; assumption.
Defined.

(** An undo stroke while a segment is withheld. *)
Lemma correction_or_empty_star_witness :
  consistent Toy.pending = true
  /\ is_correction Toy.undo = true
  /\ exists self' its,
       on_stroked Toy.pending Toy.undo [Toy.f; Toy.o] 2000000 = Ok self'
       /\ items self' = Some its
       /\ its !! "t"%char = Some "*"
       /\ its !! "h"%char = Some ""
       /\ was_fingerspelling self' = false.
Proof.
  split; [reflexivity|]. split; [reflexivity|].
  apply (correction_or_empty_star Toy.pending Toy.undo [Toy.f; Toy.o] 2000000
           eq_refl (or_introl eq_refl)).
Defined.

(** C10 as the specification words it fails: with the default template
    and an empty hint, a word written with its space after it leaves a
    line that ends in that space; only the right segment is stripped. *)
Lemma line_ends_in_space_with_empty_hint :
  (left_format Toy.translating, right_format Toy.translating)
  = split_format default_output_format
  /\ event_items Toy.translating (ev_stroke Toy.spaced_event)
       (ev_translations Toy.spaced_event) (ev_now Toy.spaced_event) !! "h"%char
     = Some ""
  /\ written (run Toy.translating [Toy.spaced_event])
     = ["      |    A  T | cat "; ""; nl]
  /\ last_char (Py.concat ["      |    A  T | cat "; ""]) = Some " "%char.
Proof.
  split; [reflexivity|].
  split; [vm_compute; reflexivity|].
  split; vm_compute; reflexivity.
Qed.

(** The word after the letters: both segments written at once. *)
Lemma right_segment_stripped_witness :
  consistent Toy.pending = true
  /\ exists (self' : TapeyTape) (its : Items),
       on_stroked Toy.pending (ev_stroke Toy.word_after)
         (ev_translations Toy.word_after) (ev_now Toy.word_after) = Ok self'
       /\ items self' = Some its
       /\ (was_fingerspelling self' = false ->
           file self'
           = file Toy.pending
             ++ resolved Toy.pending (ev_stroke Toy.word_after)
                  (ev_translations Toy.word_after)
             ++ [expand (left_format Toy.pending) its;
                 Py.rstrip (expand (right_format Toy.pending) its);
                 nl]).
Proof.
  split; [reflexivity|].
  destruct (right_segment_stripped Toy.pending (ev_stroke Toy.word_after)
              (ev_translations Toy.word_after) (ev_now Toy.word_after) eq_refl)
    as (self' & its & Hon & Hi & _ & Him & _).
  exists self', its. auto.
Defined.

(** ** The further properties at work on the small host *)

(** A template without placeholders. *)
Lemma expand_plain_witness :
  has_char "%" "tape: " = false /\ expand "tape: " Toy.pending_items = "tape: ".
Proof.
  split; [reflexivity|]. apply (expand_plain "tape: " Toy.pending_items eq_refl).
Defined.

(** A literal percent sign. *)
Lemma expand_escape_percent_witness :
  Toy.pending_items !! "%"%char = Some "%"
  /\ expand (escape_percent "100% done") Toy.pending_items = "100% done".
Proof.
  split; [reflexivity|].
  apply (expand_escape_percent "100% done" Toy.pending_items eq_refl).
Defined.

(** A clock that went back by half a second. *)
Lemma bar_fixed_width_witness :
  (0 <= bar_max_width Toy.tape)%Z
  /\ Z.of_nat (String.length (bar Toy.tape (- (1 # 2)))) = bar_max_width Toy.tape.
Proof.
  assert (Hm : (0 <= bar_max_width Toy.tape)%Z) by (simpl; lia).
  split; [exact Hm|]. apply (bar_fixed_width Toy.tape (- (1 # 2)) Hm).
Defined.

(** The key [2-] with [P-]: shown as [T-], [P-] and the number key. *)
Lemma steno_number_alias_witness :
  "2-" ∈ steno_keys (mkStroke ["2-"; "P-"] false)
  /\ "T-" ∈ pressed_keys Toy.started (mkStroke ["2-"; "P-"] false)
  /\ "#" ∈ pressed_keys Toy.started (mkStroke ["2-"; "P-"] false).
Proof.
  assert (Hin : "2-" ∈ steno_keys (mkStroke ["2-"; "P-"] false))
    by (simpl; apply list_elem_of_here).
  assert (E : numbers Toy.started !! "2-" = Some "T-")
    by (vm_compute; reflexivity).
  pose proof (steno_number_alias Toy.started (mkStroke ["2-"; "P-"] false)
                "2-" Hin) as Hm.
  rewrite E in Hm. destruct Hm as (Hl & Hn & _).
  split; [exact Hin|]. split; [exact Hl | exact Hn].
Defined.

(** The same keys in another order, one of them twice. *)
Lemma steno_set_witness :
  (forall key, key ∈ ["T-"; "P-"] <-> key ∈ ["P-"; "T-"; "P-"])
  /\ steno Toy.started (mkStroke ["T-"; "P-"] false)
     = steno Toy.started (mkStroke ["P-"; "T-"; "P-"] false).
Proof.
  assert (Hs : forall key : string,
            key ∈ ["T-"; "P-"] <-> key ∈ ["P-"; "T-"; "P-"]).
  { intros key. rewrite !elem_of_cons, !elem_of_nil. tauto. }
  split; [exact Hs|].
  apply (steno_set Toy.started (mkStroke ["T-"; "P-"] false)
           (mkStroke ["P-"; "T-"; "P-"] false) Hs).
Defined.

(** The nine slots of the small host. *)
Lemma steno_width_witness :
  Forall (fun key => String.length (Py.strip_char "-" key) = 1%nat) KEYS
  /\ String.length (steno Toy.started (mkStroke ["2-"; "P-"] false)) = 9%nat.
Proof.
  assert (Hk : Forall (fun key => String.length (Py.strip_char "-" key) = 1%nat)
                 KEYS) by (repeat constructor).
  split; [exact Hk|].
  apply (steno_width Toy.started (mkStroke ["2-"; "P-"] false) Hk).
Defined.

(** Two letters after a start without configuration file. *)
Lemma handler_never_raises_witness :
  start Missing = Ok Toy.config
  /\ tape_of Toy.config = Some Toy.started
  /\ exists self' self'',
       run Toy.started [Toy.first; Toy.second] = Ok self'
       /\ settings self' = settings Toy.started
       /\ (1 # 100 <= bar_time_unit self')%Q
       /\ stop self' = Ok self''.
Proof.
  split; [reflexivity|]. split; [reflexivity|].
  apply (handler_never_raises Missing Toy.config Toy.started
           [Toy.first; Toy.second] eq_refl eq_refl).
Defined.

(** The word after the letters, appended to what was written. *)
Lemma log_append_only_witness :
  consistent Toy.pending = true
  /\ exists self',
       run Toy.pending [Toy.word_after] = Ok self'
       /\ file Toy.pending `prefix_of` file self'.
Proof.
  split; [reflexivity|].
  apply (log_append_only Toy.pending [Toy.word_after] eq_refl).
Defined.

(** The first letter. *)
Lemma pending_after_event_witness :
  consistent Toy.tape = true
  /\ exists self',
       handle Toy.tape Toy.first = Ok self'
       /\ was_fingerspelling self' = fingerspelling_event Toy.first
       /\ last_stroke_time self' = Some (ev_now Toy.first)
       /\ settings self' = settings Toy.tape.
Proof.
  split; [reflexivity|]. apply (pending_after_event Toy.tape Toy.first eq_refl).
Defined.

(** The first stroke ever. *)
Lemma first_event_bar_witness :
  last_stroke_time Toy.tape = None
  /\ (fdiv 0 (bar_time_unit Toy.tape) == 0)%Q
  /\ (0 <= bar_max_width Toy.tape)%Z
  /\ event_items Toy.tape (ev_stroke Toy.first) (ev_translations Toy.first)
       (ev_now Toy.first) !! "b"%char
     = Some (Py.replicate (Z.to_nat (bar_max_width Toy.tape)) " ").
Proof.
  assert (Hz : (fdiv 0 (bar_time_unit Toy.tape) == 0)%Q) by reflexivity.
  assert (Hm : (0 <= bar_max_width Toy.tape)%Z) by (simpl; lia).
  split; [reflexivity|]. split; [exact Hz|]. split; [exact Hm|].
  apply (first_event_bar Toy.tape (ev_stroke Toy.first)
           (ev_translations Toy.first) (ev_now Toy.first) eq_refl Hz Hm).
Defined.

(** An entry that writes nothing, after a letter. *)
Lemma empty_formatting_event_witness :
  consistent Toy.pending = true
  /\ last [Toy.f; Toy.silent] = Some Toy.silent
  /\ formatting Toy.silent = []
  /\ exists self' its,
       on_stroked Toy.pending (mkStroke ["S-"] false) [Toy.f; Toy.silent] 2000000
       = Ok self'
       /\ items self' = Some its
       /\ its !! "h"%char = Some ""
       /\ was_fingerspelling self' = false.
Proof.
  split; [reflexivity|]. split; [reflexivity|]. split; [reflexivity|].
  apply (empty_formatting_event Toy.pending (mkStroke ["S-"] false)
           [Toy.f; Toy.silent] Toy.silent 2000000 eq_refl eq_refl eq_refl).
Defined.

(** No configuration file. *)
Lemma start_clamps_witness :
  start Missing = Ok Toy.config
  /\ (0 <= cfg_bar_max_width Toy.config <= 100)%Z
  /\ cfg_numbers Toy.config = invert_numbers.
Proof.
  split; [reflexivity|].
  destruct (start_clamps Missing Toy.config eq_refl) as (_ & Hw & _ & Hn & _).
  split; assumption.
Defined.

(** One fingerspelled letter. *)
Lemma single_stroke_no_suggestion_witness :
  (stroke_count [Toy.f] <= 1)%nat
  /\ Forall (fun outline : Outline => outline = []) (get_suggestions [Toy.f]).
Proof.
  assert (Hc : (stroke_count [Toy.f] <= 1)%nat) by (simpl; lia).
  split; [exact Hc|]. apply (single_stroke_no_suggestion [Toy.f] Hc).
Defined.
